(** * Smart Web Scraper: the orchestration pipeline of [background.js]

    A shallow embedding of [WebScrapingOrchestrator] (rate limiter, result
    cache, query analyzer with its keyword fallback, scrape executor and data
    extractor) and the properties its specification states about it.

    Modelling choices, all read off the source:
    - a JavaScript string is a Rocq [string] whose characters are code
      units: the characters 0..127 and 160..255 are the code units U+0000
      ..U+007F and U+00A0..U+00FF, and the characters 128..159 stand for
      the low surrogates U+DC80..U+DC9F (the C1 controls U+0080..U+009F,
      which these characters would otherwise be, are left out of the
      alphabet). No high surrogate being in the alphabet, such a surrogate
      is a lone one wherever it stands. On these code units [toLowerCase],
      [trim], [includes], [replace] and [encodeURIComponent] are given
      exactly: a surrogate is no letter and no white space, and
      [encodeURIComponent] throws [URIError] on it;
    - a number is an integer ([Z]): the code only handles timestamps,
      lengths and HTTP status codes;
    - the three [Map]s of the orchestrator are [gmap]s keyed by strings;
    - values of unknown shape (what the model answers, what is cached) are
      [value] trees, objects being association lists in property-creation
      order;
    - the browser, the network and the clock are an environment [Env] of
      oracles, asked once per call, and every call is recorded in a trace;
      [JSON.parse] and the wording of the two prompts are parameters;
    - [extractPageContent] runs in the page: for the orchestrator, what it
      hands back is part of the answer of [chrome.scripting.executeScript];
      the function itself is embedded over a page whose elements answer
      [querySelector];
    - of the popup, [escapeHtml], through which the results are displayed;
    - an [async] method is a state-passing computation that completes by
      returning, by throwing, or never (a promise that never settles);
      a call runs to completion, interleaving of calls is not modelled;
    - [console] output is left out. *)

From Stdlib Require Import ZArith Ascii String List Bool Lia.
From stdpp Require Import base option list gmap fin_maps strings pretty.

Set Warnings "-register-all".

Local Open Scope string_scope.
Local Open Scope Z_scope.

(** ** JavaScript strings *)

(** An [Error] object; the code only ever reads its [message]. *)
Record JsError : Type := Error { message : string }.

(** Sequencing of steps that may throw. *)
Notation "'try!' x ':=' r 'in' k" :=
  (match r with inl e => inl e | inr x => k end)
  (at level 10, x name, r at level 100, k at level 200).

Module JsString.

Definition code (c : ascii) : N := N_of_ascii c.

Definition in_range (lo hi : N) (n : N) : bool := ((lo <=? n) && (n <=? hi))%N.

(** [String.prototype.toLowerCase] on one code unit: [A-Z] and
    U+00C0..U+00DE (the multiplication sign U+00D7 apart) move up by 32;
    the others, a lone surrogate among them, stay. *)
Definition lower_unit (c : ascii) : ascii :=
  let n := code c in
  if in_range 65 90 n || (in_range 192 222 n && negb (n =? 215)%N)
  then ascii_of_N (n + 32) else c.

Fixpoint toLowerCase (s : string) : string :=
  match s with
  | EmptyString => EmptyString
  | String c s' => String (lower_unit c) (toLowerCase s')
  end.

(** White space and line terminators of ECMAScript among the code units
    of the alphabet: TAB, LF, VT, FF, CR, SP and NBSP. *)
Definition is_space (c : ascii) : bool :=
  let n := code c in in_range 9 13 n || (n =? 32)%N || (n =? 160)%N.

Fixpoint trimStart (s : string) : string :=
  match s with
  | String c s' => if is_space c then trimStart s' else s
  | EmptyString => EmptyString
  end.

(** [trimEnd] keeps a character when it is not a space or when something
    that is kept follows it. *)
Fixpoint trimEnd (s : string) : string :=
  match s with
  | EmptyString => EmptyString
  | String c s' =>
      match trimEnd s' with
      | EmptyString => if is_space c then EmptyString else String c EmptyString
      | rest => String c rest
      end
  end.

Definition trim (s : string) : string := trimEnd (trimStart s).

Fixpoint startsWith (s p : string) : bool :=
  match p, s with
  | EmptyString, _ => true
  | String a p', String b s' => if Ascii.eqb a b then startsWith s' p' else false
  | String _ _, EmptyString => false
  end.

(** [s.includes(k)]: [k] occurs at some position of [s]. *)
Fixpoint includes (s k : string) : bool :=
  startsWith s k ||
  match s with
  | EmptyString => false
  | String _ s' => includes s' k
  end.

Fixpoint drop (n : nat) (s : string) : string :=
  match n, s with
  | O, _ => s
  | S n', String _ s' => drop n' s'
  | S _, EmptyString => EmptyString
  end.

Fixpoint take (n : nat) (s : string) : string :=
  match n, s with
  | S n', String c s' => String c (take n' s')
  | _, _ => EmptyString
  end.

(** [s.substring(0, n)] and [s.substr(start, len)] for the non-negative
    literals the code passes. *)
Definition substring0 (n : N) (s : string) : string := take (N.to_nat n) s.
Definition substr (start len : nat) (s : string) : string := take len (drop start s).

(** Position of the first occurrence of [p] in [s], as the text before
    and after it. *)
Fixpoint split_at_first (p s : string) : option (string * string) :=
  if startsWith s p then Some (EmptyString, drop (String.length p) s)
  else match s with
       | EmptyString => None
       | String c s' =>
           match split_at_first p s' with
           | Some (before, after) => Some (String c before, after)
           | None => None
           end
       end.

(** [GetSubstitution] for a string pattern (no capture groups): in the
    replacement text [$$] is a dollar sign, [$&] the matched text, [$`]
    the text before the match and [$'] the text after it; any other
    dollar sign stands for itself. *)
Fixpoint getSubstitution (matched before after repl : string) : string :=
  match repl with
  | EmptyString => EmptyString
  | String "$" (String c rest) =>
      if Ascii.eqb c "$" then String "$" (getSubstitution matched before after rest)
      else if Ascii.eqb c "&" then matched +:+ getSubstitution matched before after rest
      else if Ascii.eqb c "`" then before +:+ getSubstitution matched before after rest
      else if Ascii.eqb c "'" then after +:+ getSubstitution matched before after rest
      else String "$" (String c (getSubstitution matched before after rest))
  | String c rest => String c (getSubstitution matched before after rest)
  end.

(** [s.replace(p, r)] with a string pattern: the first occurrence only. *)
Definition replace (s p r : string) : string :=
  match split_at_first p s with
  | None => s
  | Some (before, after) => before +:+ getSubstitution p before after r +:+ after
  end.

Definition hex_digit (n : N) : ascii :=
  if (n <? 10)%N then ascii_of_N (48 + n) else ascii_of_N (55 + n).

Definition percent_byte (n : N) : string :=
  String "%" (String (hex_digit (n / 16)) (String (hex_digit (n mod 16)) EmptyString)).

(** Characters [encodeURIComponent] leaves alone: letters, digits and
    [- _ . ! ~ * ' ( )]. *)
Definition uri_unreserved (c : ascii) : bool :=
  let n := code c in
  in_range 65 90 n || in_range 97 122 n || in_range 48 57 n ||
  existsb (N.eqb n) [45; 95; 46; 33; 126; 42; 39; 40; 41]%N.

(** The characters that stand for the surrogates U+DC80..U+DC9F. *)
Definition is_lone_surrogate (c : ascii) : bool := in_range 128 159 (code c).

Fixpoint well_formed (s : string) : bool :=
  match s with
  | EmptyString => true
  | String c s' => negb (is_lone_surrogate c) && well_formed s'
  end.

(** The UTF-8 bytes of a code unit below U+0100, percent-encoded
    ([encodeURIComponent] never asks for those of a surrogate). *)
Definition encode_unit (c : ascii) : string :=
  let n := code c in
  if uri_unreserved c then String c EmptyString
  else if (n <? 128)%N then percent_byte n
  else percent_byte (192 + n / 64) +:+ percent_byte (128 + n mod 64).

(** What [encodeURIComponent] throws on a lone surrogate. *)
Definition URIError : JsError := Error "URI malformed".

(** [encodeURIComponent(s)]: the code units are encoded from left to
    right, and the first lone surrogate met throws. *)
Fixpoint encodeURIComponent (s : string) : JsError + string :=
  match s with
  | EmptyString => inr EmptyString
  | String c s' =>
      if is_lone_surrogate c then inl URIError
      else try! rest := encodeURIComponent s' in inr (encode_unit c +:+ rest)
  end.

(** Text from the start of [s] up to and including its last [}]. *)
Fixpoint upto_last_close (s : string) : option string :=
  match s with
  | EmptyString => None
  | String c s' =>
      match upto_last_close s' with
      | Some m => Some (String c m)
      | None => if Ascii.eqb c "}" then Some (String c EmptyString) else None
      end
  end.

(** [s.match(/\{[\s\S]*\}/)]: the span from the first [{] to the last
    [}] after it, [None] for JavaScript's [null]. *)
Fixpoint match_braces (s : string) : option string :=
  match s with
  | EmptyString => None
  | String c s' =>
      if Ascii.eqb c "{" then
        match upto_last_close s' with
        | Some m => Some (String c m)
        | None => None
        end
      else match_braces s'
  end.

End JsString.

(** ** JavaScript values *)

Inductive value : Type :=
| VUndefined
| VNull
| VBool (b : bool)
| VNum (n : Z)
| VStr (s : string)
| VArr (items : list value)
| VObj (props : list (string * value)).

Module Js.

(** [ToBoolean]. *)
Definition truthy (v : value) : bool :=
  match v with
  | VUndefined | VNull => false
  | VBool b => b
  | VNum n => negb (n =? 0)
  | VStr s => negb (String.eqb s EmptyString)
  | VArr _ | VObj _ => true
  end.

(** [a || b] on values already computed. *)
Definition or (a b : value) : value := if truthy a then a else b.

Fixpoint assoc (k : string) (props : list (string * value)) : option value :=
  match props with
  | [] => None
  | (k', v) :: rest => if String.eqb k k' then Some v else assoc k rest
  end.

(** Creating or overwriting one property: an existing key keeps its
    place, a new key goes last (that engines list integer-like keys first
    is not modelled; no property below depends on the order). *)
Fixpoint define (k : string) (v : value) (props : list (string * value))
  : list (string * value) :=
  match props with
  | [] => [(k, v)]
  | (k', v') :: rest =>
      if String.eqb k k' then (k, v) :: rest else (k', v') :: define k v rest
  end.

Fixpoint indexed {A} (mk : A -> value) (i : nat) (l : list A) : list (string * value) :=
  match l with
  | [] => []
  | x :: l' => (pretty i, mk x) :: indexed mk (S i) l'
  end.

(** Own enumerable properties, as the spread syntax [...v] copies them. *)
Definition own_props (v : value) : list (string * value) :=
  match v with
  | VObj props => props
  | VArr items => indexed (fun x => x) 0 items
  | VStr s => indexed (fun c => VStr (String c EmptyString)) 0 (list_ascii_of_string s)
  | _ => []
  end.

(** [{ ...props, ...v }]. *)
Definition spread (props : list (string * value)) (v : value) : list (string * value) :=
  fold_left (fun acc kv => define (fst kv) (snd kv) acc) (own_props v) props.

Definition cannot_read (what k : string) : JsError :=
  Error ("Cannot read properties of " +:+ what +:+ " (reading '" +:+ k +:+ "')").

(** [v.k] for the property names the code reads on values of unknown
    shape ([url], [selectors], [scraping_strategy], [response], [text]):
    none of them is inherited from a prototype, so only own properties
    answer; reading a property of [undefined] or [null] is a TypeError. *)
Definition get (v : value) (k : string) : JsError + value :=
  match v with
  | VUndefined => inl (cannot_read "undefined" k)
  | VNull => inl (cannot_read "null" k)
  | VObj props => inr (default VUndefined (assoc k props))
  | VArr items => inr (if String.eqb k "length" then VNum (Z.of_nat (length items)) else VUndefined)
  | VStr s => inr (if String.eqb k "length" then VNum (Z.of_nat (String.length s)) else VUndefined)
  | VBool _ | VNum _ => inr VUndefined
  end.

End Js.

(** ** Completions, the environment and the trace *)

(** How a call (or a promise that is awaited) completes. *)
Inductive Completion (A : Type) : Type :=
| Return (a : A)
| Throw (e : JsError)
| Pending.
Arguments Return {A} a.
Arguments Throw {A} e.
Arguments Pending {A}.

(** The parts of the request body sent to the inference endpoint that vary
    from call to call. *)
Record FetchBody : Type := { prompt : string; max_tokens : option Z }.

(** A [Response]: [ok], [status] and how [response.json()] settles. *)
Record Response : Type := { ok : bool; status : Z; json : Completion value }.

(** What [extractPageContent] hands back from the page: on both of its
    return paths [html] is a string and [data] an array. *)
Record PageContent : Type := { pc_html : string; pc_data : list value }.

(** One [InjectionResult]; [result] is absent when the frame gave none. *)
Record InjectionResult : Type := { result : option PageContent }.

Inductive Event : Type :=
| EvNow
| EvRandom
| EvFetch (body : FetchBody)
| EvTabCreate (url : value)
| EvTabWait (tabId : Z)
| EvExecuteScript (tabId : Z) (selectors : value)
| EvTabRemove (tabId : Z).

(** The oracles are indexed by the number of calls made before, so that
    the same call can be answered differently at different times. *)
Record Env : Type := {
  env_now : nat -> Z;
  (** [Math.random().toString(36)] *)
  env_random36 : nat -> string;
  env_fetch : nat -> FetchBody -> Completion Response;
  (** [chrome.tabs.create], answering with the id of the new tab *)
  env_tabs_create : nat -> value -> Completion Z;
  (** whether the tab ever reports [status === 'complete'] *)
  env_tab_completes : nat -> Z -> bool;
  env_executeScript : nat -> Z -> value -> Completion (list InjectionResult);
  env_tabs_remove : nat -> Z -> Completion unit
}.

Record ActiveRequest : Type := { query : string; startTime : Z }.

(** What [performScraping] returns. *)
Record ScrapingResult : Type := {
  url : value;
  strategy : value;
  html : string;
  data : list value
}.

(** A message to [handleMessage]: [request.action] and [request.query]. *)
Record Request : Type := { action : string; request_query : string }.

(** The fields of [WebScrapingOrchestrator], and the calls made so far. *)
Record World : Type := {
  activeRequests : gmap string ActiveRequest;
  cache : gmap string value;
  rateLimiter : gmap string Z;
  trace : list Event
}.

Definition M (A : Type) : Type := World -> Completion A * World.

Definition ret {A} (a : A) : M A := fun w => (Return a, w).

Definition throw {A} (e : JsError) : M A := fun w => (Throw e, w).

Definition bind {A B} (m : M A) (k : A -> M B) : M B :=
  fun w =>
    match m w with
    | (Return a, w') => k a w'
    | (Throw e, w') => (Throw e, w')
    | (Pending, w') => (Pending, w')
    end.

(** [try { body } catch (error) { handler }]. *)
Definition try_catch {A} (body : M A) (handler : JsError -> M A) : M A :=
  fun w =>
    match body w with
    | (Throw e, w') => handler e w'
    | other => other
    end.

Notation "'let*' x ':=' m 'in' k" := (bind m (fun x => k))
  (at level 10, x name, m at level 100, k at level 200).

(** An operation that throws or yields, lifted into [M]. *)
Definition lift {A} (r : JsError + A) : M A :=
  match r with
  | inl e => throw e
  | inr a => ret a
  end.

Definition record (ev : Event) (w : World) : World :=
  {| activeRequests := activeRequests w; cache := cache w;
     rateLimiter := rateLimiter w; trace := trace w ++ [ev] |}.

(** One call to the outside: recorded, and answered by the oracle. *)
Definition perform {A} (ev : Event) (answer : nat -> Completion A) : M A :=
  fun w => (answer (length (trace w)), record ev w).

Definition modify (f : World -> World) : M unit := fun w => (Return tt, f w).

Definition set_activeRequests (f : gmap string ActiveRequest -> gmap string ActiveRequest)
  (w : World) : World :=
  {| activeRequests := f (activeRequests w); cache := cache w;
     rateLimiter := rateLimiter w; trace := trace w |}.

Definition set_cache (f : gmap string value -> gmap string value) (w : World) : World :=
  {| activeRequests := activeRequests w; cache := f (cache w);
     rateLimiter := rateLimiter w; trace := trace w |}.

Definition set_rateLimiter (f : gmap string Z -> gmap string Z) (w : World) : World :=
  {| activeRequests := activeRequests w; cache := cache w;
     rateLimiter := f (rateLimiter w); trace := trace w |}.

(** ** The fallback analyzer *)

Module URL_TEMPLATES.
Definition amazon := "https://www.amazon.in/s?k={QUERY}".
Definition flights := "https://www.google.com/travel/flights?q={QUERY}".
Definition tracking := "https://www.bluedart.com/tracking".
Definition google := "https://www.google.com/search?q={QUERY}".
Definition shopping := "https://shopping.google.com/search?q={QUERY}".
Definition flipkart := "https://www.flipkart.com/search?q={QUERY}".
Definition myntra := "https://www.myntra.com/{QUERY}".
Definition zomato := "https://www.zomato.com/search?q={QUERY}".
Definition swiggy := "https://www.swiggy.com/search?q={QUERY}".
End URL_TEMPLATES.

(** The object literal every branch of [fallbackAnalysis] returns. *)
Definition analysis (website url strategy primary secondary : string) : value :=
  VObj [("website", VStr website);
        ("url", VStr url);
        ("scraping_strategy", VStr strategy);
        ("selectors", VObj [("primary", VStr primary); ("secondary", VStr secondary)])].

(** The double-quote character, for the one selector that contains it. *)
Definition dquote : string := String (ascii_of_N 34) EmptyString.

(** [TEMPLATE.replace('{QUERY}', encodeURIComponent(query))] *)
Definition fill (template q : string) : JsError + string :=
  try! encoded := JsString.encodeURIComponent q in
  inr (JsString.replace template "{QUERY}" encoded).

(** [fallbackAnalysis(query)] returns the object of the first branch whose
    keyword the lowercased query includes, or throws what
    [encodeURIComponent] throws when that branch builds its URL. *)
Definition fallbackAnalysis (q : string) : JsError + value :=
  let lowerQuery := JsString.toLowerCase q in
  if JsString.includes lowerQuery "laptop" || JsString.includes lowerQuery "phone"
     || JsString.includes lowerQuery "product" then
    try! url := fill URL_TEMPLATES.amazon q in
    inr (analysis "amazon" url "product_list"
           ("[data-component-type=" +:+ dquote +:+ "s-search-result" +:+ dquote +:+ "]")
           ".s-price, .a-price-whole")
  else if JsString.includes lowerQuery "flight" || JsString.includes lowerQuery "travel" then
    try! url := fill URL_TEMPLATES.flights q in
    inr (analysis "flights" url "flight_search"
           ".gws-flights-results__result" ".gws-flights-results__price")
  else if JsString.includes lowerQuery "track" || JsString.includes lowerQuery "package" then
    inr (analysis "tracking" URL_TEMPLATES.tracking "tracking_info" ".tracking-info" ".status")
  else if JsString.includes lowerQuery "restaurant" || JsString.includes lowerQuery "food" then
    try! url := fill URL_TEMPLATES.zomato q in
    inr (analysis "zomato" url "restaurant_search" ".search-result" ".rating, .cost")
  else
    try! url := fill URL_TEMPLATES.google q in
    inr (analysis "google" url "general_search" ".g" ".r a").

(** The decision list as the specification words it: rules tried in
    order, each a list of keywords and the strategy their presence in the
    lowercased query selects (a URL template with the URL-encoded query
    substituted, where the strategy has one); the first rule with a
    keyword present wins, and the general web search is the default. *)
Definition spec_rules : list (list string * (string -> JsError + value)) :=
  [ (["laptop"; "phone"; "product"],
     fun q => try! url := fill URL_TEMPLATES.amazon q in
              inr (analysis "amazon" url "product_list"
                     ("[data-component-type=" +:+ dquote +:+ "s-search-result" +:+ dquote +:+ "]")
                     ".s-price, .a-price-whole"));
    (["flight"; "travel"],
     fun q => try! url := fill URL_TEMPLATES.flights q in
              inr (analysis "flights" url "flight_search"
                     ".gws-flights-results__result" ".gws-flights-results__price"));
    (["track"; "package"],
     fun _ => inr (analysis "tracking" URL_TEMPLATES.tracking "tracking_info"
                     ".tracking-info" ".status"));
    (["restaurant"; "food"],
     fun q => try! url := fill URL_TEMPLATES.zomato q in
              inr (analysis "zomato" url "restaurant_search"
                     ".search-result" ".rating, .cost")) ].

Definition spec_default (q : string) : JsError + value :=
  try! url := fill URL_TEMPLATES.google q in
  inr (analysis "google" url "general_search" ".g" ".r a").

Fixpoint first_match (rules : list (list string * (string -> JsError + value)))
  (lowered q : string) : JsError + value :=
  match rules with
  | [] => spec_default q
  | (keywords, strategy_for) :: rest =>
      if existsb (JsString.includes lowered) keywords then strategy_for q
      else first_match rest lowered q
  end.

Definition spec_fallback (q : string) : JsError + value :=
  first_match spec_rules (JsString.toLowerCase q) q.

(** ** The function injected into the page *)

(** The page as [extractPageContent] uses it. An element answers
    [querySelector] with a descendant, with nothing, or by throwing (a
    selector that does not parse), and has a text and, for links, an
    [href]; selectors are handed over as the values they are. *)
Inductive Element : Type := {
  querySelector : value -> JsError + option Element;
  textContent : string;
  href : value
}.

Record Document : Type := {
  querySelectorAll : value -> JsError + list Element;
  (** [document.documentElement.outerHTML] *)
  outerHTML : string;
  (** [window.location.href] *)
  location_href : string
}.

(** [found?.textContent?.trim() || otherwise] *)
Definition text_or (found : option Element) (otherwise : string) : value :=
  match found with
  | Some el => Js.or (VStr (JsString.trim (textContent el))) (VStr otherwise)
  | None => VStr otherwise
  end.

(** The object built for one matched element. *)
Definition page_item (selectors : value) (element : Element) : JsError + value :=
  try! title := querySelector element (VStr "h3, h2, h1, .title, [title]") in
  try! secondary := Js.get selectors "secondary" in
  try! price := querySelector element secondary in
  try! anchor := querySelector element (VStr "a") in
  try! description := querySelector element (VStr ".description, p") in
  try! rating := querySelector element (VStr ".rating, .stars, [data-rating]") in
  inr (VObj [("title", text_or title "No title");
             ("price", text_or price "Price not found");
             ("link", match anchor with
                      | Some el => Js.or (href el) (VStr EmptyString)
                      | None => VStr EmptyString
                      end);
             ("description",
              match description with
              | Some el =>
                  Js.or (VStr (JsString.substring0 200 (JsString.trim (textContent el))))
                        (VStr EmptyString)
              | None => VStr EmptyString
              end);
             ("rating", text_or rating "No rating")]).

(** [elements.forEach((element, index) => ...)]: from index 20 on the
    callback returns at once; before that it builds the item and pushes it. *)
Fixpoint forEach_push (selectors : value) (index : nat) (elements : list Element)
  (pushed : list value) : JsError + list value :=
  match elements with
  | [] => inr pushed
  | element :: rest =>
      if (20 <=? index)%nat then forEach_push selectors (S index) rest pushed
      else
        try! item := page_item selectors element in
        forEach_push selectors (S index) rest (pushed ++ [item])
  end.

(** [extractPageContent], run in [doc] at page time [now]. *)
Definition extractPageContent (doc : Document) (now : Z) (selectors : value) : value :=
  match (try! primary := Js.get selectors "primary" in
         try! elements := querySelectorAll doc primary in
         forEach_push selectors 0 elements []) with
  | inr items =>
      VObj [("html", VStr (JsString.substring0 50000 (outerHTML doc)));
            ("data", VArr items);
            ("timestamp", VNum now);
            ("url", VStr (location_href doc))]
  | inl error =>
      VObj [("html", VStr EmptyString);
            ("data", VArr []);
            ("error", VStr (message error));
            ("timestamp", VNum now);
            ("url", VStr (location_href doc))]
  end.

(** The [html] and [data] of what the function returned, as
    [performScraping] reads them off the injection result. *)
Definition content_of (returned : value) : option PageContent :=
  match Js.get returned "html", Js.get returned "data" with
  | inr (VStr h), inr (VArr items) => Some {| pc_html := h; pc_data := items |}
  | _, _ => None
  end.

(** An item as [extractPageContent] builds it: five properties, the title,
    price and rating never empty, the description at most 200 characters,
    the link a truthy [href] or the empty string. *)
Definition well_formed_item (item : value) : Prop :=
  ∃ title price link description rating,
    item = VObj [("title", VStr title); ("price", VStr price); ("link", link);
                 ("description", VStr description); ("rating", VStr rating)]
    ∧ title ≠ EmptyString ∧ price ≠ EmptyString ∧ rating ≠ EmptyString
    ∧ (String.length description ≤ 200)%nat
    ∧ (Js.truthy link = true ∨ link = VStr EmptyString).

(** ** The popup's [escapeHtml] *)

(** [s.replace(/c/g, r)] for a pattern of one literal character and a
    replacement text without a dollar sign. *)
Fixpoint replace_each (c : ascii) (r : string) (s : string) : string :=
  match s with
  | EmptyString => EmptyString
  | String x s' =>
      if Ascii.eqb x c then r +:+ replace_each c r s' else String x (replace_each c r s')
  end.

(** [PopupManager.escapeHtml]: anything but a string gives the empty
    string; a string goes through the five replacements in turn. *)
Definition escapeHtml (unsafe : value) : string :=
  match unsafe with
  | VStr text =>
      replace_each "'" "&#039;"
        (replace_each (ascii_of_N 34) "&quot;"
           (replace_each ">" "&gt;"
              (replace_each "<" "&lt;"
                 (replace_each "&" "&amp;" text))))
  | _ => EmptyString
  end.

(** The escape of one character, and escaping in a single pass. *)
Definition entity (c : ascii) : string :=
  if Ascii.eqb c "&" then "&amp;"
  else if Ascii.eqb c "<" then "&lt;"
  else if Ascii.eqb c ">" then "&gt;"
  else if Ascii.eqb c (ascii_of_N 34) then "&quot;"
  else if Ascii.eqb c "'" then "&#039;"
  else String c EmptyString.

Fixpoint escape_each (s : string) : string :=
  match s with
  | EmptyString => EmptyString
  | String c s' => entity c +:+ escape_each s'
  end.

(** A character that cannot open or close a tag or an attribute value. *)
Definition markup_free (c : ascii) : bool :=
  negb (Ascii.eqb c "<" || Ascii.eqb c ">" || Ascii.eqb c (ascii_of_N 34) || Ascii.eqb c "'").

(** ** Vocabulary for the string properties *)

(** Every character of [s] satisfies [p]. *)
Fixpoint all_chars (p : ascii -> bool) (s : string) : bool :=
  match s with
  | EmptyString => true
  | String c s' => p c && all_chars p s'
  end.

(** A character [encodeURIComponent] can produce: unreserved, or the
    percent sign of an escape. *)
Definition url_char (c : ascii) : bool :=
  JsString.uri_unreserved c || Ascii.eqb c "%".

(** A text that is empty or starts with a character that is not a
    space, as [trimStart] leaves it. *)
Definition starts_clean (s : string) : Prop :=
  match s with
  | EmptyString => True
  | String c _ => JsString.is_space c = false
  end.

(** What the scrape executor reads off the analysis that a call returned,
    apart from the URL; the error when the call threw. *)
Definition classification (r : JsError + value)
  : JsError + (JsError + value) * (JsError + value) * (JsError + value) :=
  try! a := r in
  inr (Js.get a "website", Js.get a "scraping_strategy", Js.get a "selectors").

(** The fixed text in front of the placeholder in the four templates that
    have one and that [fallbackAnalysis] uses. *)
Definition search_prefixes : list string :=
  [ "https://www.amazon.in/s?k=";
    "https://www.google.com/travel/flights?q=";
    "https://www.zomato.com/search?q=";
    "https://www.google.com/search?q=" ].

(** ** Sample environments and worlds *)

Module Sample.

Definition epoch : Z := 1700000000000.

(** A clock that advances one millisecond per call. *)
Definition ticking (n : nat) : Z := epoch + Z.of_nat n.

(** A clock that advances 1500 ms per call. *)
Definition strolling (n : nat) : Z := epoch + 1500 * Z.of_nat n.

Definition item : value :=
  VObj [("title", VStr "Laptop X15");
        ("price", VStr "79,990");
        ("link", VStr "https://www.amazon.in/dp/B0X15");
        ("description", VStr EmptyString);
        ("rating", VStr "4.3")].

Definition page : PageContent :=
  {| pc_html := "<html><body><h2>Laptop X15</h2></body></html>"; pc_data := [item] |}.

Definition found : Completion (list InjectionResult) :=
  Return [{| result := Some page |}].

Definition script_rejected : Completion (list InjectionResult) :=
  Throw (Error "Cannot access contents of the page").

Definition offline : Completion Response := Throw (Error "Failed to fetch").

Definition server_error : Completion Response :=
  Return {| ok := false; status := 500; json := Return VNull |}.

(** A browser whose tabs get id 7 and always finish loading. *)
Definition browser (clock : nat -> Z) (ai : Completion Response)
  (script : Completion (list InjectionResult)) : Env :=
  {| env_now := clock;
     env_random36 := fun _ => "0.4fzyo82mvyr";
     env_fetch := fun _ _ => ai;
     env_tabs_create := fun _ _ => Return 7;
     env_tab_completes := fun _ _ => true;
     env_executeScript := fun _ _ _ => script;
     env_tabs_remove := fun _ _ => Return tt |}.

(** A stand-in for [JSON.parse] that knows the empty object only. *)
Definition parse (text : string) : JsError + value :=
  if String.eqb text "{}" then inr (VObj [])
  else inl (Error "Unexpected token in JSON").

Definition analyzer_prompt : string := "User Query: {QUERY}".
Definition extractor_prompt : string := "HTML Content: {HTML_CONTENT}".

Definition fresh : World :=
  {| activeRequests := ∅; cache := ∅; rateLimiter := ∅; trace := [] |}.

(** What [fallbackAnalysis] returns for ["gaming laptop under 80000"]. *)
Definition laptop_analysis : value :=
  analysis "amazon" "https://www.amazon.in/s?k=gaming%20laptop%20under%2080000"
    "product_list"
    ("[data-component-type=" +:+ dquote +:+ "s-search-result" +:+ dquote +:+ "]")
    ".s-price, .a-price-whole".

(** The code unit U+DC80, and a query that ends with it. *)
Definition lone_surrogate : string := String (ascii_of_N 128) EmptyString.
Definition malformed_query : string := "laptop " +:+ lone_surrogate.

(** A clock that stands at [epoch] for the first ten readings, 1000 ms
    later for the next three and 2500 ms later from then on: a first
    [processQuery] at [epoch], a second 1000 ms later, and whatever
    follows 1500 ms after the second. *)
Definition stepping (n : nat) : Z :=
  if (n <? 10)%nat then epoch
  else if (n <? 13)%nat then epoch + 1000
  else epoch + 2500.

(** A page on which the selectors match nothing. *)
Definition nothing_scraped : Completion (list InjectionResult) :=
  Return [{| result := Some {| pc_html := "<html><body></body></html>"; pc_data := [] |} |}].

(** A world in which ["laptop"] was allowed at [epoch]. *)
Definition limited : World :=
  {| activeRequests := ∅; cache := ∅;
     rateLimiter := {[ "laptop" := epoch ]}; trace := [] |}.

(** An element without descendants. *)
Definition leaf (text : string) (link : value) : Element :=
  {| querySelector := fun _ => inr None; textContent := text; href := link |}.

(** A product card: a heading, a price under [.price], a link, no
    description and a blank rating. *)
Definition card : Element :=
  {| querySelector := fun selector =>
       match selector with
       | VStr sel =>
           if String.eqb sel "h3, h2, h1, .title, [title]"
           then inr (Some (leaf "  Laptop X15 " VUndefined))
           else if String.eqb sel ".price" then inr (Some (leaf "79,990" VUndefined))
           else if String.eqb sel "a"
           then inr (Some (leaf "Laptop X15" (VStr "https://www.amazon.in/dp/B0X15")))
           else if String.eqb sel ".rating, .stars, [data-rating]"
           then inr (Some (leaf "   " VUndefined))
           else if String.eqb sel "]["
           then inl (Error "Failed to execute 'querySelector' on 'Element': '][' is not a valid selector.")
           else inr None
       | _ => inr None
       end;
     textContent := "Laptop X15 79,990";
     href := VUndefined |}.

(** A page on which [.card] matches 25 cards. *)
Definition shop : Document :=
  {| querySelectorAll := fun selector =>
       match selector with
       | VStr sel => if String.eqb sel ".card" then inr (replicate 25 card) else inr []
       | _ => inr []
       end;
     outerHTML := "<html><body>25 cards</body></html>";
     location_href := "https://www.amazon.in/s?k=laptop" |}.

Definition card_selectors : value :=
  VObj [("primary", VStr ".card"); ("secondary", VStr ".price")].

Definition broken_selectors : value :=
  VObj [("primary", VStr ".card"); ("secondary", VStr "][")].

(** A browser in which the injected function is [extractPageContent] run
    on [shop]. *)
Definition shop_browser : Env :=
  {| env_now := ticking;
     env_random36 := fun _ => "0.4fzyo82mvyr";
     env_fetch := fun _ _ => offline;
     env_tabs_create := fun _ _ => Return 7;
     env_tab_completes := fun _ _ => true;
     env_executeScript := fun _ _ selectors =>
       Return [{| result := content_of (extractPageContent shop epoch selectors) |}];
     env_tabs_remove := fun _ _ => Return tt |}.

(** A reply of the model that holds the empty object. *)
Definition empty_object_reply : Completion Response :=
  Return {| ok := true; status := 200;
            json := Return (VObj [("response", VStr "Here you go: {}")]) |}.

(** The item [extractPageContent] builds for [card] under
    [card_selectors]. *)
Definition listed : value :=
  VObj [("title", VStr "Laptop X15");
        ("price", VStr "79,990");
        ("link", VStr "https://www.amazon.in/dp/B0X15");
        ("description", VStr EmptyString);
        ("rating", VStr "No rating")].

Definition shop_analysis : value :=
  VObj [("website", VStr "amazon");
        ("url", VStr "https://www.amazon.in/s?k=laptop");
        ("scraping_strategy", VStr "product_list");
        ("selectors", card_selectors)].

Definition shop_result : ScrapingResult :=
  {| url := VStr "https://www.amazon.in/s?k=laptop"; strategy := VStr "product_list";
     html := "<html><body>25 cards</body></html>"; data := replicate 20 listed |}.

Definition nothing_found : ScrapingResult :=
  {| url := VStr "https://www.google.com/search?q=xyz"; strategy := VStr "general_search";
     html := "<html></html>"; data := [] |}.

Definition something_found : ScrapingResult :=
  {| url := VStr "https://www.amazon.in/s?k=laptop"; strategy := VStr "product_list";
     html := "<html></html>"; data := [item] |}.

End Sample.

(** ** The orchestrator *)

Section Orchestrator.

Variable env : Env.

(** [JSON.parse]: a SyntaxError or the parsed value. *)
Variable JSON_parse : string -> JsError + value.

(** The two prompt templates; nothing depends on their wording. *)
Variable QUERY_ANALYZER_PROMPT : string.
Variable DATA_EXTRACTOR_PROMPT : string.

Definition gets {A} (f : World -> A) : M A := fun w => (Return (f w), w).

(** Awaiting a promise whose outcome is already known. *)
Definition await {A} (c : Completion A) : M A := fun w => (c, w).

Definition Date_now : M Z := perform EvNow (fun n => Return (env_now env n)).

Definition Math_random_toString36 : M string :=
  perform EvRandom (fun n => Return (env_random36 env n)).

Definition fetch (body : FetchBody) : M Response :=
  perform (EvFetch body) (fun n => env_fetch env n body).

Definition tabs_create (u : value) : M Z :=
  perform (EvTabCreate u) (fun n => env_tabs_create env n u).

Definition executeScript (tabId : Z) (selectors : value) : M (list InjectionResult) :=
  perform (EvExecuteScript tabId selectors) (fun n => env_executeScript env n tabId selectors).

Definition tabs_remove (tabId : Z) : M unit :=
  perform (EvTabRemove tabId) (fun n => env_tabs_remove env n tabId).

(** The promise resolves (after the settle delay) once the tab reports
    that it is complete, and is never rejected. *)
Definition waitForTabLoad (tabId : Z) : M unit :=
  perform (EvTabWait tabId)
    (fun n => if env_tab_completes env n tabId then Return tt else Pending).

Definition testGemmaConnection : M bool :=
  try_catch
    (let* response := fetch {| prompt := "Test connection"; max_tokens := None |} in
     ret (ok response))
    (fun _ => ret false).

(** The guard [limit && now - limit < 2000]. *)
Definition within_cooldown (limit : option Z) (now : Z) : bool :=
  match limit with
  | Some l => Js.truthy (VNum l) && (now - l <? 2000)
  | None => false
  end.

Definition checkRateLimit (key : string) : M bool :=
  let* now := Date_now in
  let* limit := gets (fun w => rateLimiter w !! key) in
  if within_cooldown limit now then ret false
  else
    let* _ := modify (set_rateLimiter <[key := now]>) in
    ret true.

(** [data.response || data.text || ''] *)
Definition response_text (d : value) : JsError + value :=
  match Js.get d "response" with
  | inl e => inl e
  | inr r =>
      if Js.truthy r then inr r
      else match Js.get d "text" with
           | inl e => inl e
           | inr t => inr (Js.or t (VStr EmptyString))
           end
  end.

(** [text.match(/\{[\s\S]*\}/)]; only strings have a [match] method. *)
Definition match_json (name : string) (text : value) : JsError + option string :=
  match text with
  | VStr s => inr (JsString.match_braces s)
  | _ => inl (Error (name +:+ ".match is not a function"))
  end.

Definition analyzeQueryWithGemma (q : string) : M value :=
  try_catch
    (let p := JsString.replace QUERY_ANALYZER_PROMPT "{QUERY}" q in
     let* response := fetch {| prompt := p; max_tokens := Some 500 |} in
     if negb (ok response) then
       throw (Error ("Gemma API error: " +:+ pretty (status response)))
     else
       let* d := await (json response) in
       let* analysisText := lift (response_text d) in
       let* jsonMatch := lift (match_json "analysisText" analysisText) in
       match jsonMatch with
       | None => lift (fallbackAnalysis q)
       | Some m => lift (JSON_parse m)
       end)
    (fun _ => lift (fallbackAnalysis q)).

Definition performScraping (analysisResult : value) : M ScrapingResult :=
  try_catch
    (let* u := lift (Js.get analysisResult "url") in
     let* tabId := tabs_create u in
     let* _ := waitForTabLoad tabId in
     let* selectors := lift (Js.get analysisResult "selectors") in
     let* results := executeScript tabId selectors in
     let* _ := tabs_remove tabId in
     let* strat := lift (Js.get analysisResult "scraping_strategy") in
     match results with
     | [] => throw (Js.cannot_read "undefined" "result")
     | first :: _ =>
         match result first with
         | None => throw (Js.cannot_read "undefined" "html")
         | Some content =>
             ret {| url := u; strategy := strat;
                    html := pc_html content; data := pc_data content |}
         end
     end)
    (fun error => throw (Error ("Scraping failed: " +:+ message error))).

Definition extractDataWithGemma (scrapingResult : ScrapingResult) : M value :=
  try_catch
    (if (0 <? Z.of_nat (length (data scrapingResult))) then
       let* now := Date_now in
       ret (VObj [("success", VBool true);
                  ("source", VStr "direct_scraping");
                  ("url", url scrapingResult);
                  ("strategy", strategy scrapingResult);
                  ("extracted_data", VArr (data scrapingResult));
                  ("total_results", VNum (Z.of_nat (length (data scrapingResult))));
                  ("timestamp", VNum now)])
     else
       let p := JsString.replace DATA_EXTRACTOR_PROMPT "{HTML_CONTENT}"
                  (JsString.substring0 10000 (html scrapingResult)) in
       let* response := fetch {| prompt := p; max_tokens := Some 1000 |} in
       if negb (ok response) then
         throw (Error ("Gemma extraction error: " +:+ pretty (status response)))
       else
         let* d := await (json response) in
         let* extractionText := lift (response_text d) in
         let* jsonMatch := lift (match_json "extractionText" extractionText) in
         match jsonMatch with
         | None => throw (Error "No valid JSON found in Gemma response")
         | Some m =>
             let* extractedData := lift (JSON_parse m) in
             let* now := Date_now in
             ret (VObj (Js.define "timestamp" (VNum now)
                          (Js.spread [("success", VBool true);
                                      ("source", VStr "gemma_extraction")]
                             extractedData)))
         end)
    (fun error =>
       let* now := Date_now in
       ret (VObj [("success", VBool false);
                  ("source", VStr "fallback");
                  ("url", url scrapingResult);
                  ("strategy", strategy scrapingResult);
                  ("extracted_data", VArr (data scrapingResult));
                  ("total_results", VNum (Z.of_nat (length (data scrapingResult))));
                  ("error", VStr (message error));
                  ("timestamp", VNum now)])).

Definition rate_limit_error : JsError :=
  Error "Rate limit exceeded. Please wait before making another request.".

Definition cacheKey_of (q : string) : string :=
  "query_" +:+ JsString.trim (JsString.toLowerCase q).

(** [`req_${Date.now()}_${Math.random().toString(36).substr(2, 9)}`] *)
Definition make_requestId (t0 : Z) (rnd : string) : string :=
  "req_" +:+ pretty t0 +:+ "_" +:+ JsString.substr 2 9 rnd.

Definition processQuery (q : string) (tab : value) : M value :=
  let* t0 := Date_now in
  let* rnd := Math_random_toString36 in
  let requestId := make_requestId t0 rnd in
  try_catch
    (let* allowed := checkRateLimit q in
     if negb allowed then throw rate_limit_error
     else
       let cacheKey := cacheKey_of q in
       let* cached := gets (fun w => cache w !! cacheKey) in
       match cached with
       | Some v => ret v
       | None =>
           let* t1 := Date_now in
           let* _ := modify (set_activeRequests
                               <[requestId := {| query := q; startTime := t1 |}]>) in
           let* analysisResult := analyzeQueryWithGemma q in
           let* scrapingResult := performScraping analysisResult in
           let* extractedData := extractDataWithGemma scrapingResult in
           let* _ := modify (set_cache <[cacheKey := extractedData]>) in
           let* _ := modify (set_activeRequests (delete requestId)) in
           ret extractedData
       end)
    (fun error =>
       let* _ := modify (set_activeRequests (delete requestId)) in
       throw error).

(** [handleMessage] yields what it passes to [sendResponse]. *)
Definition handleMessage (request : Request) (sender_tab : value) : M value :=
  try_catch
    (if String.eqb (action request) "scrapeQuery" then
       let* r := processQuery (request_query request) sender_tab in
       ret (VObj [("success", VBool true); ("data", r)])
     else if String.eqb (action request) "getStatus" then
       let* nActive := gets (fun w => size (activeRequests w)) in
       let* nCache := gets (fun w => size (cache w)) in
       let* connected := testGemmaConnection in
       ret (VObj [("success", VBool true);
                  ("status", VObj [("activeRequests", VNum (Z.of_nat nActive));
                                   ("cacheSize", VNum (Z.of_nat nCache));
                                   ("gemmaConnected", VBool connected)])])
     else if String.eqb (action request) "clearCache" then
       let* _ := modify (set_cache (fun _ => ∅)) in
       ret (VObj [("success", VBool true); ("message", VStr "Cache cleared")])
     else
       ret (VObj [("success", VBool false); ("error", VStr "Unknown action")]))
    (fun error => ret (VObj [("success", VBool false); ("error", VStr (message error))])).

(** ** Vocabulary of the properties *)

(** A computation that touches none of the three maps. *)
Definition keeps_maps {A} (m : M A) : Prop :=
  ∀ w, activeRequests (snd (m w)) = activeRequests w
       ∧ cache (snd (m w)) = cache w
       ∧ rateLimiter (snd (m w)) = rateLimiter w.

(** How a call that returns or throws at once completes. *)
Definition completion {A} (r : JsError + A) : Completion A :=
  match r with
  | inl e => Throw e
  | inr a => Return a
  end.

(** The request [analyzeQueryWithGemma] sends for a query. *)
Definition analysis_request (q : string) : FetchBody :=
  {| prompt := JsString.replace QUERY_ANALYZER_PROMPT "{QUERY}" q;
     max_tokens := Some 500 |}.


(** The request [extractDataWithGemma] sends when the selectors found
    nothing. *)
Definition extraction_request (sr : ScrapingResult) : FetchBody :=
  {| prompt := JsString.replace DATA_EXTRACTOR_PROMPT "{HTML_CONTENT}"
                 (JsString.substring0 10000 (html sr));
     max_tokens := Some 1000 |}.

(** The result wrapped around data the selectors already found. *)
Definition direct_result (sr : ScrapingResult) (now : Z) : value :=
  VObj [("success", VBool true);
        ("source", VStr "direct_scraping");
        ("url", url sr);
        ("strategy", strategy sr);
        ("extracted_data", VArr (data sr));
        ("total_results", VNum (Z.of_nat (length (data sr))));
        ("timestamp", VNum now)].

(** The degraded result of the [catch] block. *)
Definition fallback_result (sr : ScrapingResult) (e : JsError) (now : Z) : value :=
  VObj [("success", VBool false);
        ("source", VStr "fallback");
        ("url", url sr);
        ("strategy", strategy sr);
        ("extracted_data", VArr (data sr));
        ("total_results", VNum (Z.of_nat (length (data sr))));
        ("error", VStr (message e));
        ("timestamp", VNum now)].

(** The ways the AI-backed extraction, started in [w], goes wrong, with
    the error that reaches the [catch] block. *)
Inductive extraction_fails (sr : ScrapingResult) (w : World) : JsError → Prop :=
| extraction_network_failure e :
    env_fetch env (length (trace w)) (extraction_request sr) = Throw e →
    extraction_fails sr w e
| extraction_http_not_ok resp :
    env_fetch env (length (trace w)) (extraction_request sr) = Return resp →
    ok resp = false →
    extraction_fails sr w (Error ("Gemma extraction error: " +:+ pretty (status resp)))
| extraction_body_not_json resp e :
    env_fetch env (length (trace w)) (extraction_request sr) = Return resp →
    ok resp = true →
    json resp = Throw e →
    extraction_fails sr w e
| extraction_body_unusable resp d e :
    env_fetch env (length (trace w)) (extraction_request sr) = Return resp →
    ok resp = true →
    json resp = Return d →
    (response_text d = inl e
     ∨ ∃ t, response_text d = inr t ∧ match_json "extractionText" t = inl e) →
    extraction_fails sr w e
| extraction_no_json_object resp d text :
    env_fetch env (length (trace w)) (extraction_request sr) = Return resp →
    ok resp = true →
    json resp = Return d →
    response_text d = inr (VStr text) →
    JsString.match_braces text = None →
    extraction_fails sr w (Error "No valid JSON found in Gemma response")
| extraction_json_object_malformed resp d text m e :
    env_fetch env (length (trace w)) (extraction_request sr) = Return resp →
    ok resp = true →
    json resp = Return d →
    response_text d = inr (VStr text) →
    JsString.match_braces text = Some m →
    JSON_parse m = inl e →
    extraction_fails sr w e.

Definition is_removal (tabId : Z) (ev : Event) : bool :=
  match ev with
  | EvTabRemove i => i =? tabId
  | _ => false
  end.

(** How many times [chrome.tabs.remove(tabId)] occurs among events. *)
Definition removals (tabId : Z) (evs : list Event) : nat :=
  length (List.filter (is_removal tabId) evs).

(** The calls made between two worlds. *)
Definition events_since (w w' : World) : list Event :=
  drop (length (trace w)) (trace w').

(** The request id [processQuery] draws when started in [w], the time its
    rate-limit check reads, and the world after that check's clock call. *)
Definition requestId_in (w : World) : string :=
  make_requestId (env_now env (length (trace w))) (env_random36 env (S (length (trace w)))).

Definition check_time (w : World) : Z := env_now env (S (S (length (trace w)))).

Definition checked (w : World) : World := record EvNow (record EvRandom (record EvNow w)).

(** The three stages in sequence. *)
Definition pipeline (q : string) : M value :=
  let* analysisResult := analyzeQueryWithGemma q in
  let* scrapingResult := performScraping analysisResult in
  extractDataWithGemma scrapingResult.

(** The world in which the pipeline starts after a cache miss. *)
Definition started (q : string) (w : World) : World :=
  set_activeRequests
    <[requestId_in w := {| query := q;
                           startTime := env_now env (S (S (S (length (trace w))))) |}]>
    (record EvNow (set_rateLimiter <[q := check_time w]> (checked w))).

(** A computation that only adds calls to the trace. *)
Definition grows_trace {A} (m : M A) : Prop :=
  ∀ w, ∃ evs, trace (snd (m w)) = (trace w ++ evs)%list.

(** No recorded timestamp is 0, the one number the guard of
    [checkRateLimit] takes for an absent entry. *)
Definition timestamps_nonzero (w : World) : Prop :=
  ∀ k ts, rateLimiter w !! k = Some ts → ts ≠ 0.

(** ** Properties *)

(** *** Rate limiter *)

Lemma checkRateLimit_run key w :
  checkRateLimit key w =
    let now := env_now env (length (trace w)) in
    if within_cooldown (rateLimiter w !! key) now
    then (Return false, record EvNow w)
    else (Return true, set_rateLimiter <[key := now]> (record EvNow w)).
Proof.
  unfold checkRateLimit, bind, Date_now, perform, gets, within_cooldown; cbn.
  destruct (rateLimiter w !! key) as [l|]; [|reflexivity].
  destruct (_ && _); reflexivity.
Qed.

Lemma within_cooldown_spec limit now :
  limit ≠ Some 0 →
  within_cooldown limit now = true ↔ ∃ ts, limit = Some ts ∧ now - ts < 2000.
Proof.
  intros Hnz. destruct limit as [l|]; cbn.
  - rewrite andb_true_iff, negb_true_iff, Z.eqb_neq, Z.ltb_lt. split.
    + intros [_ H]. exists l. auto.
    + intros (ts & [= <-] & H). split; [congruence | exact H].
  - split; [discriminate | intros (ts & [=] & _)].
Qed.

(** *** What the stages leave alone *)

Lemma keeps_maps_ret {A} (a : A) : keeps_maps (ret a).
Proof. intros w; cbn; auto. Qed.

Lemma keeps_maps_throw {A} e : keeps_maps (@throw A e).
Proof. intros w; cbn; auto. Qed.

Lemma keeps_maps_lift {A} (r : JsError + A) : keeps_maps (lift r).
Proof. destruct r; intros w; cbn; auto. Qed.

Lemma keeps_maps_await {A} (c : Completion A) : keeps_maps (await c).
Proof. intros w; cbn; auto. Qed.

Lemma keeps_maps_perform {A} ev (answer : nat -> Completion A) :
  keeps_maps (perform ev answer).
Proof. intros w; cbn; auto. Qed.

Lemma keeps_maps_bind {A B} (m : M A) (k : A -> M B) :
  keeps_maps m → (∀ a, keeps_maps (k a)) → keeps_maps (bind m k).
Proof.
  intros Hm Hk w. unfold bind. specialize (Hm w).
  destruct (m w) as [[a|e|] w']; cbn in *; auto.
  destruct (Hk a w') as (-> & -> & ->). exact Hm.
Qed.

Lemma keeps_maps_try_catch {A} (body : M A) handler :
  keeps_maps body → (∀ e, keeps_maps (handler e)) → keeps_maps (try_catch body handler).
Proof.
  intros Hb Hh w. unfold try_catch. specialize (Hb w).
  destruct (body w) as [[a|e|] w']; cbn in *; auto.
  destruct (Hh e w') as (-> & -> & ->). exact Hb.
Qed.

Lemma keeps_maps_if {A} (b : bool) (m1 m2 : M A) :
  keeps_maps m1 → keeps_maps m2 → keeps_maps (if b then m1 else m2).
Proof. destruct b; auto. Qed.

Create HintDb frame.
Hint Resolve keeps_maps_ret keeps_maps_throw keeps_maps_lift keeps_maps_await
  keeps_maps_perform keeps_maps_bind keeps_maps_try_catch keeps_maps_if : frame.

Ltac frame :=
  repeat first
    [ apply keeps_maps_ret | apply keeps_maps_throw | apply keeps_maps_lift
    | apply keeps_maps_await | apply keeps_maps_perform
    | apply keeps_maps_if
    | apply keeps_maps_bind; [|intros ?]
    | apply keeps_maps_try_catch; [|intros ?]
    | match goal with |- keeps_maps (match ?x with _ => _ end) => destruct x end ].

Lemma keeps_maps_analyze q : keeps_maps (analyzeQueryWithGemma q).
Proof.
  unfold analyzeQueryWithGemma, fetch.
  frame; auto with frame.
Qed.

Lemma keeps_maps_performScraping a : keeps_maps (performScraping a).
Proof.
  unfold performScraping, tabs_create, waitForTabLoad, executeScript, tabs_remove.
  frame.
Qed.

Lemma keeps_maps_extract sr : keeps_maps (extractDataWithGemma sr).
Proof.
  unfold extractDataWithGemma, fetch, Date_now.
  frame; auto with frame.
Qed.

(** *** Query analyzer *)

Lemma try_catch_never_throws {A} (body : M A) handler :
  (∀ e w e', fst (handler e w) ≠ Throw e') →
  ∀ w e', fst (try_catch body handler w) ≠ Throw e'.
Proof.
  intros Hh w e'. unfold try_catch.
  destruct (body w) as [[a|e|] w']; cbn; try discriminate. apply Hh.
Qed.

Lemma encodeURIComponent_throws q e :
  JsString.encodeURIComponent q = inl e →
  e = JsString.URIError ∧ JsString.well_formed q = false.
Proof.
  induction q as [|c q IH]; cbn; [discriminate|].
  destruct (JsString.is_lone_surrogate c); cbn.
  - intros [= <-]. auto.
  - destruct (JsString.encodeURIComponent q); [|discriminate].
    intros [= <-]. by apply IH.
Qed.

Lemma encodeURIComponent_returns q :
  JsString.well_formed q = true → ∃ encoded, JsString.encodeURIComponent q = inr encoded.
Proof.
  intros H. destruct (JsString.encodeURIComponent q) as [e|encoded] eqn:He; [|eauto].
  apply encodeURIComponent_throws in He as [_ He]. congruence.
Qed.

Lemma fill_throws template q e :
  fill template q = inl e → e = JsString.URIError ∧ JsString.well_formed q = false.
Proof.
  unfold fill. destruct (JsString.encodeURIComponent q) eqn:He; [|discriminate].
  intros [= <-]. by apply encodeURIComponent_throws.
Qed.

(** [fallbackAnalysis] throws nothing but the [URIError] of a query that
    holds a lone surrogate. *)
Lemma fallbackAnalysis_throws q e :
  fallbackAnalysis q = inl e → e = JsString.URIError ∧ JsString.well_formed q = false.
Proof.
  unfold fallbackAnalysis.
  repeat match goal with
         | |- context [if ?b then _ else _] => destruct b
         end;
    try discriminate;
    match goal with
    | |- context [fill ?t q] =>
        destruct (fill t q) eqn:Hf; [|discriminate];
        intros [= <-]; by apply (fill_throws t)
    end.
Qed.


(** Whatever [analyzeQueryWithGemma] throws, [fallbackAnalysis] threw. *)
Lemma analyze_throws q w e :
  fst (analyzeQueryWithGemma q w) = Throw e → fallbackAnalysis q = inl e.
Proof.
  unfold analyzeQueryWithGemma, try_catch.
  match goal with |- context [match ?body w with _ => _ end] => destruct (body w) as [[a|e0|] w'] end;
    cbn; try discriminate.
  unfold lift. destruct (fallbackAnalysis q); cbn; congruence.
Qed.


(** Evaluation that keeps the named pieces folded. *)
Ltac stepwise :=
  cbn -[match_json response_text extraction_request analysis_request record
        JsString.replace].


(** *** Data extractor *)

Lemma extract_direct sr w :
  data sr ≠ [] →
  extractDataWithGemma sr w
  = (Return (direct_result sr (env_now env (length (trace w)))), record EvNow w).
Proof.
  intros Hne. unfold extractDataWithGemma, try_catch, bind, Date_now, perform.
  destruct (data sr) as [|x l] eqn:Hd; [congruence|].
  unfold direct_result. rewrite Hd. reflexivity.
Qed.

Lemma extract_never_throws sr w e : fst (extractDataWithGemma sr w) ≠ Throw e.
Proof.
  apply try_catch_never_throws. intros e0 w0 e'.
  unfold bind, Date_now, perform; cbn. discriminate.
Qed.

Lemma extract_degrades sr w e :
  data sr = [] →
  extraction_fails sr w e →
  extractDataWithGemma sr w
  = (Return (fallback_result sr e (env_now env (S (length (trace w))))),
     record EvNow (record (EvFetch (extraction_request sr)) w)).
Proof.
  intros Hd H.
  unfold extractDataWithGemma, try_catch, bind, fetch, Date_now, perform, await, lift.
  fold (extraction_request sr). rewrite Hd.
  change (0 <? Z.of_nat (length (@nil value))) with false. cbv beta iota.
  assert (Hlen : length (trace (record (EvFetch (extraction_request sr)) w))
                 = S (length (trace w))).
  { cbn. rewrite length_app. cbn. lia. }
  destruct H as [e H | resp H Hok | resp e H Hok Hj | resp d e H Hok Hj Ht
                | resp d text H Hok Hj Ht Hm | resp d text m e H Hok Hj Ht Hm Hp];
    rewrite H; stepwise; rewrite ?Hok; stepwise; rewrite ?Hj; stepwise.
  - unfold fallback_result. rewrite Hlen, Hd. reflexivity.
  - unfold fallback_result. rewrite Hlen, Hd. reflexivity.
  - unfold fallback_result. rewrite Hlen, Hd. reflexivity.
  - destruct Ht as [-> | (t & -> & Hm)]; stepwise; rewrite ?Hm; stepwise;
      unfold fallback_result; rewrite Hlen, Hd; reflexivity.
  - rewrite Ht. stepwise. unfold match_json. rewrite Hm. stepwise.
    unfold fallback_result. rewrite Hlen, Hd. reflexivity.
  - rewrite Ht. stepwise. unfold match_json. rewrite Hm. stepwise. rewrite Hp. stepwise.
    unfold fallback_result. rewrite Hlen, Hd. reflexivity.
Qed.

(** *** Scrape executor *)

Lemma length_trace_record ev w : length (trace (record ev w)) = S (length (trace w)).
Proof. cbn. rewrite length_app. cbn. lia. Qed.

Lemma events_since_record1 w e1 : events_since w (record e1 w) = [e1].
Proof. unfold events_since; cbn. by rewrite drop_app_length. Qed.

Lemma events_since_record3 w e1 e2 e3 :
  events_since w (record e3 (record e2 (record e1 w))) = [e1; e2; e3].
Proof.
  unfold events_since; cbn. rewrite <- !app_assoc. by rewrite drop_app_length.
Qed.

Lemma events_since_record4 w e1 e2 e3 e4 :
  events_since w (record e4 (record e3 (record e2 (record e1 w)))) = [e1; e2; e3; e4].
Proof.
  unfold events_since; cbn. rewrite <- !app_assoc. by rewrite drop_app_length.
Qed.

Lemma performScraping_throws a w e :
  fst (performScraping a w) = Throw e →
  ∃ e', e = Error ("Scraping failed: " +:+ message e').
Proof.
  unfold performScraping, try_catch.
  match goal with |- context [let (_, _) := ?b w in _] => destruct (b w) as [[r|e0|] w'] end;
    cbn; try discriminate.
  intros [= <-]. eauto.
Qed.

(** The success path: the tab is created, waited for, scripted and removed. *)
Lemma performScraping_success a w u sel strat tabId first rest content :
  Js.get a "url" = inr u →
  Js.get a "selectors" = inr sel →
  Js.get a "scraping_strategy" = inr strat →
  env_tabs_create env (length (trace w)) u = Return tabId →
  env_tab_completes env (S (length (trace w))) tabId = true →
  env_executeScript env (S (S (length (trace w)))) tabId sel = Return (first :: rest) →
  env_tabs_remove env (S (S (S (length (trace w))))) tabId = Return tt →
  result first = Some content →
  performScraping a w
  = (Return {| url := u; strategy := strat;
               html := pc_html content; data := pc_data content |},
     record (EvTabRemove tabId)
       (record (EvExecuteScript tabId sel)
          (record (EvTabWait tabId) (record (EvTabCreate u) w)))).
Proof.
  intros Hu Hsel Hstrat Hc Hl Hx Hr Hres.
  unfold performScraping, try_catch, bind, tabs_create, waitForTabLoad, executeScript,
    tabs_remove, perform, lift.
  rewrite Hu. cbn -[record]. rewrite Hc. cbn -[record].
  rewrite length_trace_record, Hl. cbn -[record].
  rewrite Hsel. cbn -[record].
  rewrite !length_trace_record, Hx. cbn -[record].
  rewrite ?length_trace_record, Hr. cbn -[record].
  rewrite Hstrat. cbn -[record]. rewrite Hres. reflexivity.
Qed.

(** The injected script fails: the [catch] block rethrows, and nothing
    has removed the tab. *)
Lemma performScraping_script_failure a w u sel tabId e :
  Js.get a "url" = inr u →
  Js.get a "selectors" = inr sel →
  env_tabs_create env (length (trace w)) u = Return tabId →
  env_tab_completes env (S (length (trace w))) tabId = true →
  env_executeScript env (S (S (length (trace w)))) tabId sel = Throw e →
  performScraping a w
  = (Throw (Error ("Scraping failed: " +:+ message e)),
     record (EvExecuteScript tabId sel)
       (record (EvTabWait tabId) (record (EvTabCreate u) w))).
Proof.
  intros Hu Hsel Hc Hl Hx.
  unfold performScraping, try_catch, bind, tabs_create, waitForTabLoad, executeScript,
    tabs_remove, perform, lift.
  rewrite Hu. cbn -[record]. rewrite Hc. cbn -[record].
  rewrite length_trace_record, Hl. cbn -[record].
  rewrite Hsel. cbn -[record].
  rewrite !length_trace_record, Hx. reflexivity.
Qed.

(** *** Orchestrator *)

Lemma keeps_maps_pipeline q : keeps_maps (pipeline q).
Proof.
  unfold pipeline.
  eauto using keeps_maps_bind, keeps_maps_analyze, keeps_maps_performScraping,
    keeps_maps_extract.
Qed.

Lemma processQuery_enter q tab w :
  processQuery q tab w =
    try_catch
      (let* allowed := checkRateLimit q in
       if negb allowed then throw rate_limit_error
       else
         let* cached := gets (fun w => cache w !! cacheKey_of q) in
         match cached with
         | Some v => ret v
         | None =>
             let* t1 := Date_now in
             let* _ := modify (set_activeRequests
                                 <[requestId_in w := {| query := q; startTime := t1 |}]>) in
             let* extractedData := pipeline q in
             let* _ := modify (set_cache <[cacheKey_of q := extractedData]>) in
             let* _ := modify (set_activeRequests (delete (requestId_in w))) in
             ret extractedData
         end)
      (fun error =>
         let* _ := modify (set_activeRequests (delete (requestId_in w))) in
         throw error)
      (record EvRandom (record EvNow w)).
Proof.
  unfold processQuery, requestId_in.
  unfold bind at 1. unfold Date_now at 1. unfold perform at 1. cbv iota beta.
  unfold bind at 1. unfold Math_random_toString36, perform at 1. cbv iota beta.
  rewrite length_trace_record.
  unfold try_catch. f_equal.
  unfold pipeline. unfold bind.
  destruct (checkRateLimit q _) as [[[|]|e|] w1]; try reflexivity. cbn -[record].
  destruct (cache w1 !! cacheKey_of q); try reflexivity.
  destruct (analyzeQueryWithGemma q _) as [[r|e|] w2]; try reflexivity.
  destruct (performScraping r w2) as [[sr|e|] w3]; reflexivity.
Qed.

Lemma processQuery_rejected q tab w :
  within_cooldown (rateLimiter w !! q) (check_time w) = true →
  processQuery q tab w
  = (Throw rate_limit_error, set_activeRequests (delete (requestId_in w)) (checked w)).
Proof.
  intros H. rewrite processQuery_enter. unfold try_catch, bind.
  rewrite checkRateLimit_run. cbv zeta. rewrite !length_trace_record.
  change (rateLimiter (record EvRandom (record EvNow w))) with (rateLimiter w).
  fold (check_time w). rewrite H. reflexivity.
Qed.

Lemma processQuery_hit q tab w v :
  within_cooldown (rateLimiter w !! q) (check_time w) = false →
  cache w !! cacheKey_of q = Some v →
  processQuery q tab w = (Return v, set_rateLimiter <[q := check_time w]> (checked w)).
Proof.
  intros H Hc. rewrite processQuery_enter. unfold try_catch, bind.
  rewrite checkRateLimit_run. cbv zeta. rewrite !length_trace_record.
  change (rateLimiter (record EvRandom (record EvNow w))) with (rateLimiter w).
  fold (check_time w). rewrite H. cbn -[lookup cacheKey_of insert]. rewrite Hc. reflexivity.
Qed.

Lemma processQuery_miss q tab w :
  within_cooldown (rateLimiter w !! q) (check_time w) = false →
  cache w !! cacheKey_of q = None →
  processQuery q tab w =
    match pipeline q (started q w) with
    | (Return r, w') =>
        (Return r,
         set_activeRequests (delete (requestId_in w)) (set_cache <[cacheKey_of q := r]> w'))
    | (Throw e, w') => (Throw e, set_activeRequests (delete (requestId_in w)) w')
    | (Pending, w') => (Pending, w')
    end.
Proof.
  intros H Hc. rewrite processQuery_enter. unfold try_catch, bind at 1.
  rewrite checkRateLimit_run. cbv zeta. rewrite !length_trace_record.
  change (rateLimiter (record EvRandom (record EvNow w))) with (rateLimiter w).
  fold (check_time w). rewrite H. cbv iota beta. unfold negb.
  unfold bind at 1, gets at 1. cbn [cache set_rateLimiter record]. rewrite Hc.
  unfold bind at 1, Date_now at 1, perform at 1.
  unfold bind at 1, modify at 1.
  assert (Hlen : length (trace (set_rateLimiter <[q:=check_time w]>
                                  (record EvNow (record EvRandom (record EvNow w)))))
                 = S (S (S (length (trace w))))).
  { change (trace (set_rateLimiter ?f ?x)) with (trace x).
    by rewrite !length_trace_record. }
  rewrite Hlen. fold (checked w). fold (started q w).
  unfold bind at 1.
  destruct (pipeline q (started q w)) as [[r|e|] w']; reflexivity.
Qed.

Lemma pipeline_throws q w e :
  fst (pipeline q w) = Throw e →
  (∃ e', e = Error ("Scraping failed: " +:+ message e'))
  ∨ (e = JsString.URIError ∧ fallbackAnalysis q = inl e).
Proof.
  unfold pipeline, bind.
  destruct (analyzeQueryWithGemma q w) as [[a|e0|] w1] eqn:Ha; cbn; try discriminate.
  - destruct (performScraping a w1) as [[sr|e1|] w2] eqn:Hs; cbn; try discriminate.
    + intros H. by apply extract_never_throws in H.
    + intros [= <-]. left. apply (performScraping_throws a w1). by rewrite Hs.
  - intros [= <-]. right.
    assert (Hf : fallbackAnalysis q = inl e0) by (apply (analyze_throws q w); by rewrite Ha).
    split; [|exact Hf]. by apply fallbackAnalysis_throws in Hf as [-> _].
Qed.

Lemma processQuery_accepted q tab w :
  within_cooldown (rateLimiter w !! q) (check_time w) = false →
  fst (processQuery q tab w) ≠ Throw rate_limit_error.
Proof.
  intros H. destruct (cache w !! cacheKey_of q) as [v|] eqn:Hc.
  - by rewrite (processQuery_hit _ _ _ v).
  - rewrite processQuery_miss by done.
    destruct (pipeline q (started q w)) as [[r|e|] w'] eqn:Hp; cbn; try discriminate.
    intros [= ->].
    destruct (pipeline_throws q (started q w) rate_limit_error) as [[e' He']|[He' _]].
    + by rewrite Hp.
    + discriminate He'.
    + discriminate He'.
Qed.

Lemma processQuery_return_cached q tab w r w' :
  processQuery q tab w = (Return r, w') → cache w' !! cacheKey_of q = Some r.
Proof.
  destruct (within_cooldown (rateLimiter w !! q) (check_time w)) eqn:H.
  - rewrite processQuery_rejected by done. discriminate.
  - destruct (cache w !! cacheKey_of q) as [v|] eqn:Hc.
    + rewrite (processQuery_hit _ _ _ v) by done. intros [= <- <-]. exact Hc.
    + rewrite processQuery_miss by done.
      destruct (pipeline q (started q w)) as [[r0|e|] w1]; try discriminate.
      intros [= <- <-]. cbn. apply lookup_insert_eq.
Qed.

Lemma processQuery_cache_unchanged q tab w :
  (∀ r, fst (processQuery q tab w) ≠ Return r) →
  cache (snd (processQuery q tab w)) = cache w.
Proof.
  intros Hnot.
  destruct (within_cooldown (rateLimiter w !! q) (check_time w)) eqn:H.
  - rewrite processQuery_rejected by done. reflexivity.
  - destruct (cache w !! cacheKey_of q) as [v|] eqn:Hc.
    + rewrite (processQuery_hit _ _ _ v) in Hnot |- * by done. reflexivity.
    + rewrite processQuery_miss in Hnot |- * by done.
      pose proof (keeps_maps_pipeline q (started q w)) as (_ & Hk & _).
      destruct (pipeline q (started q w)) as [[r|e|] w1]; cbn in *.
      * by destruct (Hnot r).
      * exact Hk.
      * exact Hk.
Qed.

Lemma handleMessage_clearCache request sender_tab w :
  action request = "clearCache" →
  handleMessage request sender_tab w
  = (Return (VObj [("success", VBool true); ("message", VStr "Cache cleared")]),
     set_cache (fun _ => ∅) w).
Proof. intros H. unfold handleMessage. rewrite H. reflexivity. Qed.

Lemma events_since_record2 w e1 e2 :
  events_since w (record e2 (record e1 w)) = [e1; e2].
Proof.
  unfold events_since; cbn. rewrite <- !app_assoc. by rewrite drop_app_length.
Qed.

(** Every exit of [performScraping] once the tab exists: the tab is removed
    (once) exactly when [executeScript] was fulfilled; when the script is
    rejected, or the tab or the script never settles, it is not. *)
Lemma performScraping_removals a w u sel tabId :
  Js.get a "url" = inr u →
  Js.get a "selectors" = inr sel →
  env_tabs_create env (length (trace w)) u = Return tabId →
  removals tabId (events_since w (snd (performScraping a w)))
  = if env_tab_completes env (S (length (trace w))) tabId then
      match env_executeScript env (S (S (length (trace w)))) tabId sel with
      | Return _ => 1%nat
      | _ => 0%nat
      end
    else 0%nat.
Proof.
  intros Hu Hsel Hc.
  unfold performScraping, try_catch, bind, tabs_create, waitForTabLoad, executeScript,
    tabs_remove, perform, lift.
  rewrite Hu. cbn -[record]. rewrite Hc. cbn -[record].
  rewrite length_trace_record.
  destruct (env_tab_completes env (S (length (trace w))) tabId); cbn -[record].
  2: { by rewrite events_since_record2. }
  rewrite Hsel. cbn -[record]. rewrite !length_trace_record.
  destruct (env_executeScript env (S (S (length (trace w)))) tabId sel)
    as [results|e|]; cbn -[record].
  2, 3: by rewrite events_since_record3.
  assert (Hone : removals tabId [EvTabCreate u; EvTabWait tabId;
                                 EvExecuteScript tabId sel; EvTabRemove tabId] = 1%nat).
  { unfold removals. cbn. by rewrite Z.eqb_refl. }
  destruct (env_tabs_remove env _ tabId) as [[]|e|]; cbn -[record];
    [|by rewrite events_since_record4..].
  destruct (Js.get a "scraping_strategy") as [e|strat]; cbn -[record];
    [by rewrite events_since_record4|].
  destruct results as [|first rest]; cbn -[record]; [by rewrite events_since_record4|].
  destruct (result first); cbn -[record]; by rewrite events_since_record4.
Qed.

(** The success path removes the tab it created exactly once. *)
Lemma performScraping_success_removes_once a w u sel strat tabId first rest content :
  Js.get a "url" = inr u →
  Js.get a "selectors" = inr sel →
  Js.get a "scraping_strategy" = inr strat →
  env_tabs_create env (length (trace w)) u = Return tabId →
  env_tab_completes env (S (length (trace w))) tabId = true →
  env_executeScript env (S (S (length (trace w)))) tabId sel = Return (first :: rest) →
  env_tabs_remove env (S (S (S (length (trace w))))) tabId = Return tt →
  result first = Some content →
  removals tabId (events_since w (snd (performScraping a w))) = 1%nat.
Proof.
  intros. erewrite performScraping_success by eassumption.
  cbn [snd]. rewrite events_since_record4.
  unfold removals. cbn. by rewrite Z.eqb_refl.
Qed.

(** The rate-limiter map after [processQuery]: the raw query is stamped
    with the time of the check when the check passes, and nothing else
    changes. *)
Lemma processQuery_rateLimiter q tab w :
  rateLimiter (snd (processQuery q tab w))
  = if within_cooldown (rateLimiter w !! q) (check_time w)
    then rateLimiter w
    else <[q := check_time w]> (rateLimiter w).
Proof.
  destruct (within_cooldown (rateLimiter w !! q) (check_time w)) eqn:H.
  - by rewrite processQuery_rejected.
  - destruct (cache w !! cacheKey_of q) as [v|] eqn:Hc.
    + by rewrite (processQuery_hit _ _ _ v).
    + rewrite processQuery_miss by done.
      pose proof (keeps_maps_pipeline q (started q w)) as (_ & _ & Hk).
      by destruct (pipeline q (started q w)) as [[r|e|] w1]; cbn in *.
Qed.

Lemma fresh_timestamps_nonzero w : rateLimiter w = ∅ → timestamps_nonzero w.
Proof. intros H k ts. by rewrite H, lookup_empty. Qed.

Lemma processQuery_timestamps_nonzero q tab w :
  (∀ n, env_now env n ≠ 0) →
  timestamps_nonzero w → timestamps_nonzero (snd (processQuery q tab w)).
Proof.
  intros Hclock Hw k ts. rewrite processQuery_rateLimiter.
  destruct (within_cooldown _ _); [apply Hw|].
  destruct (decide (q = k)) as [->|Hne].
  - rewrite lookup_insert_eq. intros [= <-]. apply Hclock.
  - rewrite lookup_insert_ne by done. apply Hw.
Qed.

Lemma keeps_maps_testGemmaConnection : keeps_maps testGemmaConnection.
Proof. unfold testGemmaConnection, fetch. frame. Qed.

(** Whatever message is handled, with a clock past the epoch the recorded
    timestamps stay non-zero: the hypothesis of the rate-limit properties
    holds in every world the orchestrator reaches from a fresh one. *)
Lemma handleMessage_timestamps_nonzero request sender_tab w :
  (∀ n, env_now env n ≠ 0) →
  timestamps_nonzero w → timestamps_nonzero (snd (handleMessage request sender_tab w)).
Proof.
  intros Hclock Hw. unfold handleMessage, try_catch.
  destruct (String.eqb (action request) "scrapeQuery").
  { unfold bind.
    pose proof (processQuery_timestamps_nonzero (request_query request) sender_tab w
                  Hclock Hw) as Hq.
    by destruct (processQuery (request_query request) sender_tab w) as [[r|e|] w1]. }
  destruct (String.eqb (action request) "getStatus").
  { unfold bind, gets.
    pose proof (keeps_maps_testGemmaConnection w) as (_ & _ & Hk).
    destruct (testGemmaConnection w) as [[b|e|] w1]; cbn in *;
      intros k ts; rewrite Hk; apply Hw. }
  destruct (String.eqb (action request) "clearCache"); cbn; exact Hw.
Qed.

(** *** The claims *)

(** C1 (the code departs from it). The claim: the tab [performScraping]
    created is removed exactly once on every exit path. What the code
    does when the injected script fails: the [catch] block rethrows the
    wrapped error, and among the calls made there is no
    [chrome.tabs.remove] of the tab; the removal sits on the success path
    only. *)
Theorem scrape_failure_leaves_tab_open a w u sel tabId e :
  Js.get a "url" = inr u →
  Js.get a "selectors" = inr sel →
  env_tabs_create env (length (trace w)) u = Return tabId →
  env_tab_completes env (S (length (trace w))) tabId = true →
  env_executeScript env (S (S (length (trace w)))) tabId sel = Throw e →
  fst (performScraping a w) = Throw (Error ("Scraping failed: " +:+ message e))
  ∧ events_since w (snd (performScraping a w))
    = [EvTabCreate u; EvTabWait tabId; EvExecuteScript tabId sel]
  ∧ removals tabId (events_since w (snd (performScraping a w))) = 0%nat.
Proof.
  intros Hu Hsel Hc Hl Hx.
  rewrite (performScraping_script_failure a w u sel tabId e) by assumption.
  cbn [fst snd]. rewrite events_since_record3. repeat split.
Qed.

(** C2 (as amended). With the clock past the epoch (no reading, and no
    recorded timestamp, is 0): [checkRateLimit key] returns [false] exactly
    when a timestamp is recorded for [key] and less than 2000 ms have
    passed since, and returns [true] otherwise. Hence, once a call for
    [key] was allowed at time [now], a [processQuery] for the same raw key
    whose check comes less than 2000 ms after [now] is rejected with the
    rate-limit error, and one whose check comes 2000 ms or more after
    [now] is not. The window runs from the allowed call, not from a
    rejected one in between. *)
Theorem rate_limit_verdict key w :
  (∀ n, env_now env n ≠ 0) →
  rateLimiter w !! key ≠ Some 0 →
  let now := env_now env (length (trace w)) in
  let recent := ∃ ts, rateLimiter w !! key = Some ts ∧ now - ts < 2000 in
  (fst (checkRateLimit key w) = Return false ↔ recent)
  ∧ (fst (checkRateLimit key w) = Return true ↔ ¬ recent)
  ∧ (fst (checkRateLimit key w) = Return true →
     ∀ tab w2,
       rateLimiter w2 !! key = rateLimiter (snd (checkRateLimit key w)) !! key →
       (check_time w2 - now < 2000 →
        fst (processQuery key tab w2) = Throw rate_limit_error)
       ∧ (2000 ≤ check_time w2 - now →
          fst (processQuery key tab w2) ≠ Throw rate_limit_error)).
Proof.
  intros Hclock Hnz now recent.
  pose proof (within_cooldown_spec (rateLimiter w !! key) now Hnz) as Hspec.
  rewrite checkRateLimit_run. cbv zeta. fold now.
  destruct (within_cooldown (rateLimiter w !! key) now) eqn:Hg; cbn [fst snd].
  - assert (Hr : recent) by (by apply Hspec).
    split; [|split].
    + split; intros _; [exact Hr | reflexivity].
    + split; [discriminate | intros Hn; by destruct Hn].
    + discriminate.
  - assert (Hr : ¬ recent) by (intros Hr; apply Hspec in Hr; discriminate).
    split; [|split].
    + split; [discriminate | intros Hn; by destruct Hr].
    + split; intros _; [exact Hr | reflexivity].
    + intros _ tab w2 Hsame. cbn in Hsame. rewrite lookup_insert_eq in Hsame. split.
      * intros Hlt. rewrite processQuery_rejected; [done|].
        rewrite Hsame. cbn. apply andb_true_intro. split.
        -- apply negb_true_iff, Z.eqb_neq, Hclock.
        -- by apply Z.ltb_lt.
      * intros Hge. apply processQuery_accepted.
        rewrite Hsame. cbn. apply andb_false_iff. right. apply Z.ltb_ge. fold now. lia.
Qed.

(** C3 (as amended). A call that returns [true] records the time of the
    call for [key]; a call that returns [false] leaves the rate-limiter map
    as it was, so the entry for [key] stays at the earlier timestamp. *)
Theorem rate_limit_records_allowed_calls_only key w :
  let now := env_now env (length (trace w)) in
  (fst (checkRateLimit key w) = Return true
   ∧ rateLimiter (snd (checkRateLimit key w)) = <[key := now]> (rateLimiter w)
   ∧ rateLimiter (snd (checkRateLimit key w)) !! key = Some now)
  ∨ (fst (checkRateLimit key w) = Return false
     ∧ rateLimiter (snd (checkRateLimit key w)) = rateLimiter w
     ∧ ∃ ts, rateLimiter w !! key = Some ts ∧ ts ≠ 0 ∧ now - ts < 2000).
Proof.
  intros now. rewrite checkRateLimit_run. cbv zeta. fold now.
  destruct (within_cooldown (rateLimiter w !! key) now) eqn:Hg; cbn [fst snd].
  - right. repeat split.
    unfold within_cooldown in Hg. destruct (rateLimiter w !! key) as [ts|]; [|discriminate].
    cbn in Hg. apply andb_prop in Hg as [Hz Hlt].
    exists ts. repeat split.
    + by apply Z.eqb_neq, negb_true_iff.
    + by apply Z.ltb_lt.
  - left. repeat split. cbn. apply lookup_insert_eq.
Qed.


(** C5. [fallbackAnalysis] depends on the query alone and is the ordered
    first-match-wins decision list of the specification (e-commerce,
    flights, tracking, restaurants, then general search); the four sample
    queries resolve to the amazon [product_list], [flight_search],
    [restaurant_search] and default [general_search] strategies. *)
Theorem fallback_is_ordered_decision_list :
  (∀ q, fallbackAnalysis q = spec_fallback q)
  ∧ (∃ a, fallbackAnalysis "gaming laptop under 80000" = inr a
          ∧ Js.get a "website" = inr (VStr "amazon")
          ∧ Js.get a "scraping_strategy" = inr (VStr "product_list"))
  ∧ (∃ a, fallbackAnalysis "flights to Mumbai" = inr a
          ∧ Js.get a "scraping_strategy" = inr (VStr "flight_search"))
  ∧ (∃ a, fallbackAnalysis "restaurants near me" = inr a
          ∧ Js.get a "scraping_strategy" = inr (VStr "restaurant_search"))
  ∧ (∃ a, fallbackAnalysis "xyz random text" = inr a
          ∧ Js.get a "scraping_strategy" = inr (VStr "general_search")).
Proof.
  split; [|repeat split; eexists; (split; [vm_compute; reflexivity|]);
           repeat split; vm_compute; reflexivity].
  intros q. unfold fallbackAnalysis, spec_fallback, spec_rules, first_match, spec_default.
  cbn [existsb]. rewrite !orb_false_r, !orb_assoc. reflexivity.
Qed.

(** C6. When the scraped data is not empty, [extractDataWithGemma] returns
    a result whose [source] is ["direct_scraping"], whose [extracted_data]
    is the input data and whose [total_results] is its length; the only
    call it makes is one reading of the clock, so the AI endpoint is not
    invoked. *)
Theorem direct_scraping_short_circuit sr w :
  data sr ≠ [] →
  ∃ r, fst (extractDataWithGemma sr w) = Return r
       ∧ Js.get r "source" = inr (VStr "direct_scraping")
       ∧ Js.get r "extracted_data" = inr (VArr (data sr))
       ∧ Js.get r "total_results" = inr (VNum (Z.of_nat (length (data sr))))
       ∧ events_since w (snd (extractDataWithGemma sr w)) = [EvNow].
Proof.
  intros Hne. rewrite extract_direct by assumption.
  eexists. split; [reflexivity|]. cbn [fst snd].
  rewrite events_since_record1. repeat split.
Qed.


(** C8. When the scraped data is empty, [extractDataWithGemma] never
    throws; and a failure of the AI extraction (HTTP error, no JSON object
    in the response, parse error) with error [e] becomes a returned result
    with [source] ["fallback"], the empty scrape data, [total_results] 0
    and the message of [e]. *)
Theorem extractor_degrades_to_fallback sr w :
  data sr = [] →
  (∀ e, fst (extractDataWithGemma sr w) ≠ Throw e)
  ∧ (∀ e, extraction_fails sr w e →
       ∃ r, fst (extractDataWithGemma sr w) = Return r
            ∧ Js.get r "source" = inr (VStr "fallback")
            ∧ Js.get r "extracted_data" = inr (VArr [])
            ∧ Js.get r "total_results" = inr (VNum 0)
            ∧ Js.get r "error" = inr (VStr (message e))).
Proof.
  intros Hd. split.
  - intros e. apply extract_never_throws.
  - intros e H. rewrite (extract_degrades sr w e) by assumption.
    eexists. split; [reflexivity|]. unfold fallback_result. rewrite Hd. repeat split.
Qed.

(** C9 (as amended). If [processQuery] does not return (it throws,
    whichever stage or the rate limiter caused it, or it never completes),
    the cache is what it was before the call; a call that does return [r]
    leaves [r] in the cache under the query's key, every other key
    untouched. A failure of the AI extraction is not among the throws: when
    the analysis and the scrape returned, the scrape found no data and the
    extraction fails with [e], [processQuery] returns the degraded result
    ([success] false, [source] ["fallback"], the message of [e]) and stores
    it in the cache like any other. *)
Theorem failed_query_leaves_cache q tab w :
  ((∀ r, fst (processQuery q tab w) ≠ Return r) →
   cache (snd (processQuery q tab w)) = cache w)
  ∧ (∀ r, fst (processQuery q tab w) = Return r →
       cache (snd (processQuery q tab w)) !! cacheKey_of q = Some r
       ∧ ∀ k, k ≠ cacheKey_of q → cache (snd (processQuery q tab w)) !! k = cache w !! k)
  ∧ (∀ a w1 sr w2 e,
       within_cooldown (rateLimiter w !! q) (check_time w) = false →
       cache w !! cacheKey_of q = None →
       analyzeQueryWithGemma q (started q w) = (Return a, w1) →
       performScraping a w1 = (Return sr, w2) →
       data sr = [] →
       extraction_fails sr w2 e →
       ∃ r, fst (processQuery q tab w) = Return r
            ∧ Js.get r "success" = inr (VBool false)
            ∧ Js.get r "source" = inr (VStr "fallback")
            ∧ Js.get r "error" = inr (VStr (message e))
            ∧ cache (snd (processQuery q tab w)) !! cacheKey_of q = Some r).
Proof.
  split; [apply processQuery_cache_unchanged|]. split.
  - intros r Hr. split.
    + apply (processQuery_return_cached q tab w).
      destruct (processQuery q tab w) as [c w']. cbn in *. by subst.
    + intros k Hk. revert Hr.
      destruct (within_cooldown (rateLimiter w !! q) (check_time w)) eqn:H.
      { rewrite processQuery_rejected by done. discriminate. }
      destruct (cache w !! cacheKey_of q) as [v|] eqn:Hc.
      { by rewrite (processQuery_hit _ _ _ v). }
      rewrite processQuery_miss by done.
      pose proof (keeps_maps_pipeline q (started q w)) as (_ & Hkeep & _).
      destruct (pipeline q (started q w)) as [[r0|e|] w1]; try discriminate.
      intros _. cbn in *. rewrite lookup_insert_ne by done. by rewrite Hkeep.
  - intros a w1 sr w2 e Hpass Hmiss Ha Hs Hd He.
    rewrite processQuery_miss by done.
    unfold pipeline, bind. rewrite Ha, Hs, (extract_degrades sr w2 e) by done.
    eexists. split; [reflexivity|]. cbn [fst snd]. repeat split.
    cbn. apply lookup_insert_eq.
Qed.

(** C10 (as amended). [clearCache] empties the cache and leaves the
    rate-limiter map and the in-flight map as they were; so a query whose
    recorded timestamp (the time of its last allowed attempt) is less than
    2000 ms old when it is issued again after the clearing is rejected
    with the rate-limit error, without any call beyond the clock and the
    request id, and the cache stays empty. *)
Theorem clearCache_keeps_rate_limiter request sender_tab w :
  action request = "clearCache" →
  let w' := snd (handleMessage request sender_tab w) in
  cache w' = ∅
  ∧ rateLimiter w' = rateLimiter w
  ∧ activeRequests w' = activeRequests w
  ∧ ∀ q tab ts,
      rateLimiter w !! q = Some ts → ts ≠ 0 → check_time w' - ts < 2000 →
      fst (processQuery q tab w') = Throw rate_limit_error
      ∧ events_since w' (snd (processQuery q tab w')) = [EvNow; EvRandom; EvNow]
      ∧ cache (snd (processQuery q tab w')) = ∅.
Proof.
  intros Ha. rewrite handleMessage_clearCache by assumption. cbn [snd].
  split; [reflexivity|]. split; [reflexivity|]. split; [reflexivity|].
  intros q tab ts Hts Hnz Hlt.
  rewrite processQuery_rejected.
  - cbn [fst snd]. split; [reflexivity|]. split; [|reflexivity].
    unfold checked, events_since.
    change (trace (set_activeRequests ?f ?x)) with (trace x).
    apply events_since_record3.
  - cbn [rateLimiter set_cache]. rewrite Hts. cbn.
    apply andb_true_intro. split.
    + by apply negb_true_iff, Z.eqb_neq.
    + by apply Z.ltb_lt.
Qed.

(** *** Further properties of the orchestrator *)

(** [handleMessage] always answers: no completion of it is a throw. For a
    [scrapeQuery] message the answer wraps what [processQuery] did: its
    result under [data] with [success: true], or the message of the error
    it threw with [success: false]; the world is the one [processQuery]
    left. *)
Theorem handleMessage_always_answers request sender_tab w :
  (∀ e, fst (handleMessage request sender_tab w) ≠ Throw e)
  ∧ (action request = "scrapeQuery" →
     snd (handleMessage request sender_tab w)
     = snd (processQuery (request_query request) sender_tab w)
     ∧ fst (handleMessage request sender_tab w)
       = match fst (processQuery (request_query request) sender_tab w) with
         | Return r => Return (VObj [("success", VBool true); ("data", r)])
         | Throw e => Return (VObj [("success", VBool false); ("error", VStr (message e))])
         | Pending => Pending
         end).
Proof.
  split.
  - intros e. apply try_catch_never_throws. intros; discriminate.
  - intros Ha. unfold handleMessage, try_catch, bind. rewrite Ha. cbn [String.eqb Ascii.eqb Bool.eqb].
    by destruct (processQuery (request_query request) sender_tab w) as [[r|e|] w1].
Qed.

(** The request of the connectivity probe. *)
Lemma testGemmaConnection_run w :
  testGemmaConnection w
  = (match env_fetch env (length (trace w))
             {| prompt := "Test connection"; max_tokens := None |} with
     | Return resp => Return (ok resp)
     | Throw _ => Return false
     | Pending => Pending
     end,
     record (EvFetch {| prompt := "Test connection"; max_tokens := None |}) w).
Proof.
  unfold testGemmaConnection, try_catch, bind, fetch, perform.
  by destruct (env_fetch env _ _) as [resp|e|].
Qed.

(** A [getStatus] message whose probe settles is answered with the sizes
    of the in-flight map and of the cache as they are, and with
    [gemmaConnected] equal to [response.ok], or [false] when the request
    itself failed; it makes that one request and changes none of the maps. *)
Theorem getStatus_reports_without_side_effects request sender_tab w :
  action request = "getStatus" →
  env_fetch env (length (trace w)) {| prompt := "Test connection"; max_tokens := None |}
    ≠ Pending →
  let connected :=
    match env_fetch env (length (trace w))
            {| prompt := "Test connection"; max_tokens := None |} with
    | Return resp => ok resp
    | _ => false
    end in
  handleMessage request sender_tab w
  = (Return (VObj [("success", VBool true);
                   ("status",
                    VObj [("activeRequests", VNum (Z.of_nat (size (activeRequests w))));
                          ("cacheSize", VNum (Z.of_nat (size (cache w))));
                          ("gemmaConnected", VBool connected)])]),
     record (EvFetch {| prompt := "Test connection"; max_tokens := None |}) w).
Proof.
  intros Ha Hsettles connected. unfold handleMessage, try_catch, bind, gets.
  rewrite Ha. cbn [String.eqb Ascii.eqb Bool.eqb].
  rewrite testGemmaConnection_run. subst connected.
  by destruct (env_fetch env _ _) as [resp|e|].
Qed.


(** The in-flight marker. With a request id that is not in use, a
    [processQuery] that returns or throws leaves the in-flight map as it
    found it; one that never completes leaves its marker in the map. *)
Theorem inflight_marker_released q tab w :
  activeRequests w !! requestId_in w = None →
  activeRequests (snd (processQuery q tab w))
  = match fst (processQuery q tab w) with
    | Pending =>
        <[requestId_in w := {| query := q;
                               startTime := env_now env (S (S (S (length (trace w))))) |}]>
          (activeRequests w)
    | _ => activeRequests w
    end.
Proof.
  intros Hfree.
  destruct (within_cooldown (rateLimiter w !! q) (check_time w)) eqn:H.
  { rewrite processQuery_rejected by done. cbn. by apply delete_id. }
  destruct (cache w !! cacheKey_of q) as [v|] eqn:Hc.
  { by rewrite (processQuery_hit _ _ _ v). }
  rewrite processQuery_miss by done.
  pose proof (keeps_maps_pipeline q (started q w)) as (Hk & _ & _).
  destruct (pipeline q (started q w)) as [[r|e|] w1]; cbn in *; rewrite Hk.
  - by apply delete_insert_id.
  - by apply delete_insert_id.
  - reflexivity.
Qed.

(** An attempt that passes the rate limiter uses up its slot whatever
    becomes of it (served from the cache, scraped, failed in the scrape, or
    never completed): the raw query is stamped with the time of the check,
    and asking again less than 2000 ms after that time is rejected. *)
Theorem attempt_consumes_rate_limit_slot q tab w :
  (∀ n, env_now env n ≠ 0) →
  within_cooldown (rateLimiter w !! q) (check_time w) = false →
  rateLimiter (snd (processQuery q tab w)) !! q = Some (check_time w)
  ∧ ∀ tab2 w2,
      rateLimiter w2 !! q = rateLimiter (snd (processQuery q tab w)) !! q →
      check_time w2 - check_time w < 2000 →
      fst (processQuery q tab2 w2) = Throw rate_limit_error.
Proof.
  intros Hclock Hpass.
  assert (Hstamp : rateLimiter (snd (processQuery q tab w)) !! q = Some (check_time w)).
  { rewrite processQuery_rateLimiter, Hpass. apply lookup_insert_eq. }
  split; [exact Hstamp|].
  intros tab2 w2 Hsame Hlt. rewrite processQuery_rejected; [done|].
  rewrite Hsame, Hstamp. cbn. apply andb_true_intro. split.
  - apply negb_true_iff, Z.eqb_neq, Hclock.
  - by apply Z.ltb_lt.
Qed.

Lemma analyze_outcomes q w :
  snd (analyzeQueryWithGemma q w) = record (EvFetch (analysis_request q)) w
  ∧ (fst (analyzeQueryWithGemma q w) = completion (fallbackAnalysis q)
     ∨ (fst (analyzeQueryWithGemma q w) = Pending
        ∧ (env_fetch env (length (trace w)) (analysis_request q) = Pending
           ∨ ∃ resp, env_fetch env (length (trace w)) (analysis_request q) = Return resp
                     ∧ ok resp = true ∧ json resp = Pending))
     ∨ ∃ resp d text m v,
         env_fetch env (length (trace w)) (analysis_request q) = Return resp
         ∧ ok resp = true
         ∧ json resp = Return d
         ∧ response_text d = inr (VStr text)
         ∧ JsString.match_braces text = Some m
         ∧ JSON_parse m = inr v
         ∧ fst (analyzeQueryWithGemma q w) = Return v).
Proof.
  unfold analyzeQueryWithGemma, try_catch, bind, fetch, perform, await, lift.
  fold (analysis_request q). generalize (fallbackAnalysis q) as fb. intros fb.
  destruct (env_fetch env (length (trace w)) (analysis_request q)) as [resp|e|] eqn:Hf;
    cbn -[match_json response_text record].
  2: { destruct fb; (split; [reflexivity | left; reflexivity]). }
  2: { split; [reflexivity | right; left; split; [reflexivity | left; reflexivity]]. }
  destruct (ok resp) eqn:Hok; cbn -[match_json response_text record].
  2: { destruct fb; (split; [reflexivity | left; reflexivity]). }
  destruct (json resp) as [d|e|] eqn:Hj; cbn -[match_json response_text record].
  2: { destruct fb; (split; [reflexivity | left; reflexivity]). }
  2: { split; [reflexivity | right; left; split; [reflexivity | right; by exists resp]]. }
  destruct (response_text d) as [e|t] eqn:Ht; cbn -[match_json record].
  { destruct fb; (split; [reflexivity | left; reflexivity]). }
  destruct t as [| |b|n|text|items|props]; cbn -[record];
    try (destruct fb; (split; [reflexivity | left; reflexivity])).
  destruct (JsString.match_braces text) as [m|] eqn:Hm; cbn -[record].
  2: { destruct fb; (split; [reflexivity | left; reflexivity]). }
  destruct (JSON_parse m) as [e|v] eqn:Hp; cbn -[record].
  { destruct fb; (split; [reflexivity | left; reflexivity]). }
  split; [done|]. right. right. by exists resp, d, text, m, v.
Qed.

(** What [analyzeQueryWithGemma] can do: it sends one request, and then
    returns the fallback analysis, or throws the [URIError] that
    [fallbackAnalysis] threw on a query that holds a lone surrogate, or
    never completes, or returns the value parsed from the brace-delimited
    span of the reply, as it is. *)
Theorem analyzer_outcomes q w :
  snd (analyzeQueryWithGemma q w) = record (EvFetch (analysis_request q)) w
  ∧ ((∃ a, fallbackAnalysis q = inr a ∧ fst (analyzeQueryWithGemma q w) = Return a)
     ∨ (fallbackAnalysis q = inl JsString.URIError
        ∧ JsString.well_formed q = false
        ∧ fst (analyzeQueryWithGemma q w) = Throw JsString.URIError)
     ∨ (fst (analyzeQueryWithGemma q w) = Pending
        ∧ (env_fetch env (length (trace w)) (analysis_request q) = Pending
           ∨ ∃ resp, env_fetch env (length (trace w)) (analysis_request q) = Return resp
                     ∧ ok resp = true ∧ json resp = Pending))
     ∨ ∃ resp d text m v,
         env_fetch env (length (trace w)) (analysis_request q) = Return resp
         ∧ ok resp = true
         ∧ json resp = Return d
         ∧ response_text d = inr (VStr text)
         ∧ JsString.match_braces text = Some m
         ∧ JSON_parse m = inr v
         ∧ fst (analyzeQueryWithGemma q w) = Return v).
Proof.
  destruct (analyze_outcomes q w) as [Hw [H|[H|H]]]; (split; [exact Hw|]).
  - destruct (fallbackAnalysis q) as [e|a] eqn:Hf; cbn in H.
    + right. left. destruct (fallbackAnalysis_throws q e Hf) as [-> Hq]. done.
    + left. by exists a.
  - right. right. by left.
  - right. right. by right.
Qed.

Lemma performScraping_return_inv a w sr :
  fst (performScraping a w) = Return sr →
  ∃ u sel strat tabId first rest content,
    Js.get a "url" = inr u
    ∧ Js.get a "selectors" = inr sel
    ∧ Js.get a "scraping_strategy" = inr strat
    ∧ env_executeScript env (S (S (length (trace w)))) tabId sel = Return (first :: rest)
    ∧ result first = Some content
    ∧ sr = {| url := u; strategy := strat; html := pc_html content; data := pc_data content |}
    ∧ events_since w (snd (performScraping a w))
      = [EvTabCreate u; EvTabWait tabId; EvExecuteScript tabId sel; EvTabRemove tabId].
Proof.
  unfold performScraping, try_catch, bind, tabs_create, waitForTabLoad, executeScript,
    tabs_remove, perform, lift.
  destruct (Js.get a "url") as [e|u] eqn:Hu; cbn -[record]; [discriminate|].
  destruct (env_tabs_create env (length (trace w)) u) as [tabId|e|] eqn:Hc;
    cbn -[record]; [|discriminate..].
  rewrite length_trace_record.
  destruct (env_tab_completes env (S (length (trace w))) tabId); cbn -[record];
    [|discriminate].
  destruct (Js.get a "selectors") as [e|sel] eqn:Hsel; cbn -[record]; [discriminate|].
  rewrite !length_trace_record.
  destruct (env_executeScript env (S (S (length (trace w)))) tabId sel)
    as [results|e|] eqn:Hx; cbn -[record]; [|discriminate..].
  destruct (env_tabs_remove env _ tabId) as [[]|e|]; cbn -[record]; [|discriminate..].
  destruct (Js.get a "scraping_strategy") as [e|strat] eqn:Hs; cbn -[record];
    [discriminate|].
  destruct results as [|first rest]; cbn -[record]; [discriminate|].
  destruct (result first) as [content|] eqn:Hres; cbn -[record]; [|discriminate].
  intros [= <-]. exists u, sel, strat, tabId, first, rest, content.
  rewrite events_since_record4. by repeat split.
Qed.

(** [performScraping] returns only what the page handed back: when it
    returns, the tab was created, loaded, scripted and removed, in that
    order and with nothing else, and the result is the first injection
    result's [html] and [data] beside the analysis's [url] and
    [scraping_strategy]. *)
Theorem scrape_result_comes_from_page a w sr :
  fst (performScraping a w) = Return sr →
  ∃ u sel strat tabId first rest content,
    Js.get a "url" = inr u
    ∧ Js.get a "selectors" = inr sel
    ∧ Js.get a "scraping_strategy" = inr strat
    ∧ env_executeScript env (S (S (length (trace w)))) tabId sel = Return (first :: rest)
    ∧ result first = Some content
    ∧ sr = {| url := u; strategy := strat; html := pc_html content; data := pc_data content |}
    ∧ events_since w (snd (performScraping a w))
      = [EvTabCreate u; EvTabWait tabId; EvExecuteScript tabId sel; EvTabRemove tabId].
Proof. apply performScraping_return_inv. Qed.

(** Reading a property after it was written, and the others after that. *)
Lemma assoc_define_eq k v props : Js.assoc k (Js.define k v props) = Some v.
Proof.
  induction props as [|[k' v'] rest IH]; cbn.
  - by rewrite String.eqb_refl.
  - destruct (String.eqb k k') eqn:E; cbn; rewrite ?String.eqb_refl, ?E; done.
Qed.

Lemma assoc_define_ne k k' v props :
  k ≠ k' → Js.assoc k' (Js.define k v props) = Js.assoc k' props.
Proof.
  intros Hne. induction props as [|[k0 v0] rest IH]; cbn.
  - by apply String.eqb_neq in Hne; rewrite String.eqb_sym, Hne.
  - destruct (String.eqb k k0) eqn:E; cbn.
    + apply String.eqb_eq in E as <-.
      assert (String.eqb k' k = false) as -> by (apply String.eqb_neq; congruence).
      done.
    + by rewrite IH.
Qed.

Lemma assoc_None_not_key k (props : list (string * value)) :
  k ∉ map fst props → Js.assoc k props = None.
Proof.
  induction props as [|[k' v'] rest IH]; cbn; [done|].
  intros Hnot. destruct (String.eqb k k') eqn:E.
  - apply String.eqb_eq in E as ->. destruct Hnot. by left.
  - apply IH. intros Hin. apply Hnot. by right.
Qed.

(** Spreading an object with distinct keys over [base]: its properties
    win, the others are those of [base]. *)
Lemma assoc_spread k (props base : list (string * value)) :
  NoDup (map fst props) →
  Js.assoc k (Js.spread base (VObj props))
  = match Js.assoc k props with
    | Some v => Some v
    | None => Js.assoc k base
    end.
Proof.
  unfold Js.spread. cbn [Js.own_props].
  revert base. induction props as [|[k0 v0] rest IH]; intros base Hnd; cbn; [done|].
  apply NoDup_cons in Hnd as [Hfresh Hnd]. rewrite IH by done.
  destruct (String.eqb k k0) eqn:E.
  - apply String.eqb_eq in E as ->.
    by rewrite (assoc_None_not_key k0 rest), assoc_define_eq.
  - rewrite assoc_define_ne; [done|]. apply String.eqb_neq in E. congruence.
Qed.

Lemma extract_gemma sr w resp d text m v :
  data sr = [] →
  env_fetch env (length (trace w)) (extraction_request sr) = Return resp →
  ok resp = true →
  json resp = Return d →
  response_text d = inr (VStr text) →
  JsString.match_braces text = Some m →
  JSON_parse m = inr v →
  extractDataWithGemma sr w
  = (Return (VObj (Js.define "timestamp" (VNum (env_now env (S (length (trace w)))))
                     (Js.spread [("success", VBool true);
                                 ("source", VStr "gemma_extraction")] v))),
     record EvNow (record (EvFetch (extraction_request sr)) w)).
Proof.
  intros Hd H Hok Hj Ht Hm Hp.
  unfold extractDataWithGemma, try_catch, bind, fetch, Date_now, perform, await, lift.
  fold (extraction_request sr). rewrite Hd.
  change (0 <? Z.of_nat (length (@nil value))) with false. cbv beta iota.
  rewrite H; stepwise. rewrite Hok; stepwise. rewrite Hj; stepwise.
  rewrite Ht; stepwise. unfold match_json. rewrite Hm; stepwise. rewrite Hp; stepwise.
  by rewrite length_trace_record.
Qed.

(** The AI-backed extraction, when the reply parses to an object [props]
    (keys distinct, as [JSON.parse] makes them): the result carries every
    property of [props] except that [timestamp] is always the time the
    extractor read; [success] and [source] are [true] and
    ["gemma_extraction"] only if [props] does not set them itself, and
    nothing is taken from the scrape, so [url] and [strategy] are there only
    if the model supplied them. *)
Theorem gemma_extraction_result sr w resp d text m props :
  data sr = [] →
  env_fetch env (length (trace w)) (extraction_request sr) = Return resp →
  ok resp = true →
  json resp = Return d →
  response_text d = inr (VStr text) →
  JsString.match_braces text = Some m →
  JSON_parse m = inr (VObj props) →
  NoDup (map fst props) →
  ∃ r, fst (extractDataWithGemma sr w) = Return r
       ∧ Js.get r "timestamp" = inr (VNum (env_now env (S (length (trace w)))))
       ∧ (∀ k v, k ≠ "timestamp" → Js.assoc k props = Some v → Js.get r k = inr v)
       ∧ (Js.assoc "success" props = None → Js.get r "success" = inr (VBool true))
       ∧ (Js.assoc "source" props = None → Js.get r "source" = inr (VStr "gemma_extraction"))
       ∧ (Js.assoc "url" props = None → Js.get r "url" = inr VUndefined)
       ∧ (Js.assoc "strategy" props = None → Js.get r "strategy" = inr VUndefined).
Proof.
  intros Hd H Hok Hj Ht Hm Hp Hnd.
  rewrite (extract_gemma sr w resp d text m (VObj props)) by assumption.
  eexists. split; [reflexivity|]. cbn [Js.get].
  split; [by rewrite assoc_define_eq|].
  assert (Hother : ∀ k, k ≠ "timestamp" →
            Js.assoc k (Js.define "timestamp" (VNum (env_now env (S (length (trace w)))))
                          (Js.spread [("success", VBool true);
                                      ("source", VStr "gemma_extraction")] (VObj props)))
            = match Js.assoc k props with
              | Some v => Some v
              | None => Js.assoc k [("success", VBool true);
                                    ("source", VStr "gemma_extraction")]
              end).
  { intros k Hk. rewrite assoc_define_ne by congruence. by apply assoc_spread. }
  split; [|repeat split]; [intros k v Hk Hv|intros Hv..];
    rewrite Hother by done; by rewrite Hv.
Qed.

(** *** The trace only grows *)

Lemma grows_ret {A} (a : A) : grows_trace (ret a).
Proof. intros w. exists []. cbn. by rewrite app_nil_r. Qed.

Lemma grows_throw {A} e : grows_trace (@throw A e).
Proof. intros w. exists []. cbn. by rewrite app_nil_r. Qed.

Lemma grows_lift {A} (r : JsError + A) : grows_trace (lift r).
Proof. destruct r; [apply grows_throw | apply grows_ret]. Qed.

Lemma grows_await {A} (c : Completion A) : grows_trace (await c).
Proof. intros w. exists []. cbn. by rewrite app_nil_r. Qed.

Lemma grows_perform {A} ev (answer : nat -> Completion A) : grows_trace (perform ev answer).
Proof. intros w. by exists [ev]. Qed.

Lemma grows_bind {A B} (m : M A) (k : A -> M B) :
  grows_trace m → (∀ a, grows_trace (k a)) → grows_trace (bind m k).
Proof.
  intros Hm Hk w. unfold bind. destruct (Hm w) as [evs Hevs].
  destruct (m w) as [[a|e|] w']; cbn in *; [|by eauto..].
  destruct (Hk a w') as [evs' ->]. exists (evs ++ evs')%list. by rewrite Hevs, app_assoc.
Qed.

Lemma grows_try_catch {A} (body : M A) handler :
  grows_trace body → (∀ e, grows_trace (handler e)) → grows_trace (try_catch body handler).
Proof.
  intros Hb Hh w. unfold try_catch. destruct (Hb w) as [evs Hevs].
  destruct (body w) as [[a|e|] w']; cbn in *; [by eauto| |by eauto].
  destruct (Hh e w') as [evs' ->]. exists (evs ++ evs')%list. by rewrite Hevs, app_assoc.
Qed.

Lemma grows_if {A} (b : bool) (m1 m2 : M A) :
  grows_trace m1 → grows_trace m2 → grows_trace (if b then m1 else m2).
Proof. by destruct b. Qed.

Ltac growth :=
  repeat first
    [ apply grows_ret | apply grows_throw | apply grows_lift
    | apply grows_await | apply grows_perform
    | apply grows_if
    | apply grows_bind; [|intros ?]
    | apply grows_try_catch; [|intros ?]
    | match goal with |- grows_trace (match ?x with _ => _ end) => destruct x end ].

Lemma grows_performScraping a : grows_trace (performScraping a).
Proof.
  unfold performScraping, tabs_create, waitForTabLoad, executeScript, tabs_remove. growth.
Qed.

Lemma grows_extract sr : grows_trace (extractDataWithGemma sr).
Proof. unfold extractDataWithGemma, fetch, Date_now. growth. Qed.

Lemma analyze_world q w :
  snd (analyzeQueryWithGemma q w) = record (EvFetch (analysis_request q)) w.
Proof. apply analyze_outcomes. Qed.

(** The pipeline starts with the request to the analyzer. *)
Lemma pipeline_first_event q w :
  ∃ evs, trace (snd (pipeline q w))
         = (trace w ++ EvFetch (analysis_request q) :: evs)%list.
Proof.
  unfold pipeline. unfold bind at 1.
  pose proof (analyze_world q w) as Hw.
  destruct (analyzeQueryWithGemma q w) as [[a|e|] w1]; cbn [snd] in Hw; subst w1;
    [|by exists []..].
  destruct (grows_bind (performScraping a) (fun sr => extractDataWithGemma sr)
              (grows_performScraping a) grows_extract
              (record (EvFetch (analysis_request q)) w)) as [evs ->].
  exists evs. cbn. by rewrite <- app_assoc.
Qed.

(** A query that passes the rate limiter and is not in the cache sets the
    pipeline going: after the clock, the request id, the check and the
    start time, the next call is the request to the analyzer. *)
Lemma processQuery_miss_events q tab w :
  within_cooldown (rateLimiter w !! q) (check_time w) = false →
  cache w !! cacheKey_of q = None →
  ∃ evs, events_since w (snd (processQuery q tab w))
         = ([EvNow; EvRandom; EvNow; EvNow; EvFetch (analysis_request q)] ++ evs)%list.
Proof.
  intros Hpass Hmiss. rewrite processQuery_miss by done.
  destruct (pipeline_first_event q (started q w)) as [evs Hevs].
  exists evs. unfold events_since.
  assert (Htrace : trace (snd (match pipeline q (started q w) with
                               | (Return r, w') =>
                                   (Return r,
                                    set_activeRequests (delete (requestId_in w))
                                      (set_cache <[cacheKey_of q := r]> w'))
                               | (Throw e, w') =>
                                   (Throw e, set_activeRequests (delete (requestId_in w)) w')
                               | (Pending, w') => (Pending, w')
                               end))
                   = trace (snd (pipeline q (started q w)))).
  { by destruct (pipeline q (started q w)) as [[r|e|] w1]. }
  rewrite Htrace, Hevs. cbn. rewrite <- !app_assoc. cbn.
  by rewrite drop_app_length.
Qed.

(** After [clearCache], a query that the rate limiter lets through is
    processed afresh whatever was cached for it before: the analyzer is
    asked again. *)
Theorem cleared_query_is_processed_again request sender_tab w q tab :
  action request = "clearCache" →
  within_cooldown (rateLimiter w !! q)
    (check_time (snd (handleMessage request sender_tab w))) = false →
  ∃ evs,
    events_since (snd (handleMessage request sender_tab w))
      (snd (processQuery q tab (snd (handleMessage request sender_tab w))))
    = ([EvNow; EvRandom; EvNow; EvNow; EvFetch (analysis_request q)] ++ evs)%list.
Proof.
  intros Ha. rewrite handleMessage_clearCache by assumption. cbn [snd].
  intros Hpass. by apply processQuery_miss_events.
Qed.

End Orchestrator.

(** ** The claims at concrete inputs *)

(** C1: the script is rejected in the tab opened for a laptop search. *)
Lemma scrape_failure_leaves_tab_open_witness :
  let env := Sample.browser Sample.ticking Sample.offline Sample.script_rejected in
  let a := Sample.laptop_analysis in
  fst (performScraping env a Sample.fresh)
  = Throw (Error "Scraping failed: Cannot access contents of the page")
  ∧ removals 7 (events_since Sample.fresh (snd (performScraping env a Sample.fresh))) = 0%nat.
Proof.
  intros env a.
  destruct (scrape_failure_leaves_tab_open env a Sample.fresh
              (VStr "https://www.amazon.in/s?k=gaming%20laptop%20under%2080000")
              (VObj [("primary", VStr ("[data-component-type=" +:+ dquote
                                        +:+ "s-search-result" +:+ dquote +:+ "]"));
                     ("secondary", VStr ".s-price, .a-price-whole")])
              7 (Error "Cannot access contents of the page"))
    as (Hthrow & _ & Hnone); try reflexivity.
  split; [exact Hthrow | exact Hnone].
Defined.

(** The sibling path: when every step succeeds the tab is removed once. *)
Lemma scrape_success_removes_tab_once :
  let env := Sample.browser Sample.ticking Sample.offline Sample.found in
  let a := Sample.laptop_analysis in
  removals 7 (events_since Sample.fresh (snd (performScraping env a Sample.fresh))) = 1%nat.
Proof. vm_compute. reflexivity. Qed.

(** C2: a call for ["laptop"] in the same millisecond as the recorded one. *)
Lemma rate_limit_verdict_witness :
  fst (checkRateLimit (Sample.browser Sample.ticking Sample.offline Sample.found)
         "laptop" Sample.limited) = Return false.
Proof.
  destruct (rate_limit_verdict (Sample.browser Sample.ticking Sample.offline Sample.found)
              Sample.parse Sample.analyzer_prompt Sample.extractor_prompt
              "laptop" Sample.limited) as ((_ & Hdeny) & _).
  - intros n. cbn. unfold Sample.ticking, Sample.epoch. lia.
  - vm_compute. discriminate.
  - apply Hdeny. exists Sample.epoch. split; vm_compute; reflexivity.
Defined.

(** C2 as stated fails: ["laptop"] is allowed at [epoch], rejected 1000 ms
    later, and asked once more 1500 ms after the rejected invocation: the
    third invocation, less than 2000 ms after the second, is not rejected
    but answered. *)
Lemma invocation_after_rejected_one_is_accepted :
  let env := Sample.browser Sample.stepping Sample.offline Sample.found in
  let run := processQuery env Sample.parse Sample.analyzer_prompt Sample.extractor_prompt in
  let w1 := snd (run "laptop" VUndefined Sample.fresh) in
  let w2 := snd (run "laptop" VUndefined w1) in
  check_time env Sample.fresh = Sample.epoch
  ∧ fst (run "laptop" VUndefined w1) = Throw rate_limit_error
  ∧ check_time env w1 = Sample.epoch + 1000
  ∧ check_time env w2 - check_time env w1 = 1500
  ∧ ∃ r, fst (run "laptop" VUndefined w2) = Return r.
Proof.
  intros env run w1 w2.
  split; [reflexivity|]. split; [vm_compute; reflexivity|].
  split; [vm_compute; reflexivity|]. split; [vm_compute; reflexivity|].
  exists (direct_result
            {| url := VStr "https://www.amazon.in/s?k=laptop";
               strategy := VStr "product_list";
               html := pc_html Sample.page; data := pc_data Sample.page |}
            Sample.epoch).
  vm_compute. reflexivity.
Qed.

(** C3 as stated fails: a call 1500 ms after the recorded one returns
    [false], and the entry is still the earlier timestamp, not the time of
    this call. *)
Lemma rejected_call_is_not_recorded :
  let env := Sample.browser (fun _ => Sample.epoch + 1500) Sample.offline Sample.found in
  fst (checkRateLimit env "laptop" Sample.limited) = Return false
  ∧ rateLimiter (snd (checkRateLimit env "laptop" Sample.limited)) !! "laptop"
    = Some Sample.epoch
  ∧ rateLimiter (snd (checkRateLimit env "laptop" Sample.limited)) !! "laptop"
    ≠ Some (env_now env (length (trace Sample.limited))).
Proof.
  intros env. split; [|split].
  - vm_compute. reflexivity.
  - vm_compute. reflexivity.
  - vm_compute. discriminate.
Qed.



(** C6: one item was scraped. *)
Lemma direct_scraping_short_circuit_witness :
  ∃ r, fst (extractDataWithGemma (Sample.browser Sample.ticking Sample.offline Sample.found)
              Sample.parse Sample.extractor_prompt Sample.something_found Sample.fresh)
       = Return r
       ∧ Js.get r "source" = inr (VStr "direct_scraping")
       ∧ Js.get r "total_results" = inr (VNum 1).
Proof.
  destruct (direct_scraping_short_circuit
              (Sample.browser Sample.ticking Sample.offline Sample.found)
              Sample.parse Sample.extractor_prompt Sample.something_found Sample.fresh)
    as (r & Hr & Hsource & _ & Htotal & _).
  - discriminate.
  - exists r. split; [exact Hr|]. split; [exact Hsource | exact Htotal].
Defined.



(** C8: the inference endpoint answers 500 and nothing was scraped. *)
Lemma extractor_degrades_to_fallback_witness :
  ∃ r, fst (extractDataWithGemma
              (Sample.browser Sample.ticking Sample.server_error Sample.found)
              Sample.parse Sample.extractor_prompt Sample.nothing_found Sample.fresh)
       = Return r
       ∧ Js.get r "source" = inr (VStr "fallback")
       ∧ Js.get r "error" = inr (VStr "Gemma extraction error: 500").
Proof.
  destruct (extractor_degrades_to_fallback
              (Sample.browser Sample.ticking Sample.server_error Sample.found)
              Sample.parse Sample.extractor_prompt Sample.nothing_found Sample.fresh)
    as (_ & Hdegrade); [reflexivity|].
  destruct (Hdegrade (Error ("Gemma extraction error: " +:+ pretty 500)))
    as (r & Hr & Hsource & _ & _ & Herror).
  - apply extraction_http_not_ok
      with (resp := {| ok := false; status := 500; json := Return VNull |}); reflexivity.
  - exists r. split; [exact Hr|]. split; [exact Hsource | exact Herror].
Defined.

(** C9 as stated fails: the endpoint answers 500 and the page yields no
    data, so the extraction fails; [processQuery] returns the degraded
    result, stores it, and serves it from the cache to the next query with
    the same normalized form. *)
Lemma failed_extraction_is_cached_and_served :
  let env := Sample.browser Sample.ticking Sample.server_error Sample.nothing_scraped in
  let run := processQuery env Sample.parse Sample.analyzer_prompt Sample.extractor_prompt in
  let w1 := snd (run "laptop" VUndefined Sample.fresh) in
  ∃ r, fst (run "laptop" VUndefined Sample.fresh) = Return r
       ∧ Js.get r "success" = inr (VBool false)
       ∧ Js.get r "error" = inr (VStr "Gemma extraction error: 500")
       ∧ cache w1 !! "query_laptop" = Some r
       ∧ fst (run "Laptop" VUndefined w1) = Return r
       ∧ events_since w1 (snd (run "Laptop" VUndefined w1)) = [EvNow; EvRandom; EvNow].
Proof.
  intros env run w1.
  exists (fallback_result
            {| url := VStr "https://www.amazon.in/s?k=laptop";
               strategy := VStr "product_list";
               html := "<html><body></body></html>"; data := [] |}
            (Error "Gemma extraction error: 500")
            (Sample.epoch + 10)).
  repeat split; vm_compute; reflexivity.
Qed.

(** C9: when the scrape fails the cache is as empty as before; when the
    endpoint answers 500 and the page yields no data, the degraded result
    is returned and stored. *)
Lemma failed_query_leaves_cache_witness :
  cache (snd (processQuery
                (Sample.browser Sample.ticking Sample.offline Sample.script_rejected)
                Sample.parse Sample.analyzer_prompt Sample.extractor_prompt
                "laptop" VUndefined Sample.fresh))
  = cache Sample.fresh
  ∧ ∃ r, fst (processQuery
                (Sample.browser Sample.ticking Sample.server_error Sample.nothing_scraped)
                Sample.parse Sample.analyzer_prompt Sample.extractor_prompt
                "laptop" VUndefined Sample.fresh) = Return r
         ∧ Js.get r "source" = inr (VStr "fallback")
         ∧ cache (snd (processQuery
                         (Sample.browser Sample.ticking Sample.server_error
                            Sample.nothing_scraped)
                         Sample.parse Sample.analyzer_prompt Sample.extractor_prompt
                         "laptop" VUndefined Sample.fresh)) !! cacheKey_of "laptop"
           = Some r.
Proof.
  split.
  - apply (failed_query_leaves_cache
             (Sample.browser Sample.ticking Sample.offline Sample.script_rejected)
             Sample.parse Sample.analyzer_prompt Sample.extractor_prompt
             "laptop" VUndefined Sample.fresh).
    intros r. vm_compute. discriminate.
  - destruct (failed_query_leaves_cache
                (Sample.browser Sample.ticking Sample.server_error Sample.nothing_scraped)
                Sample.parse Sample.analyzer_prompt Sample.extractor_prompt
                "laptop" VUndefined Sample.fresh) as (_ & _ & Hdegraded).
    edestruct Hdegraded as (r & Hr & _ & Hsource & _ & Hcached).
    + reflexivity.
    + reflexivity.
    + reflexivity.
    + reflexivity.
    + reflexivity.
    + apply extraction_http_not_ok
        with (resp := {| ok := false; status := 500; json := Return VNull |}); reflexivity.
    + exists r. split; [exact Hr|]. split; [exact Hsource | exact Hcached].
Defined.

(** C10 as stated fails: ["laptop"] is processed and cached at [epoch],
    an attempt 1000 ms later is rejected, the cache is cleared, and the
    query is issued again 1500 ms after that last attempt: it passes the
    rate limiter and the pipeline runs again, starting with the request to
    the analyzer. *)
Lemma cleared_query_reruns_after_rejected_attempt :
  let env := Sample.browser Sample.stepping Sample.offline Sample.found in
  let run := processQuery env Sample.parse Sample.analyzer_prompt Sample.extractor_prompt in
  let clear := handleMessage env Sample.parse Sample.analyzer_prompt Sample.extractor_prompt
                 {| action := "clearCache"; request_query := EmptyString |} VUndefined in
  let w1 := snd (run "laptop" VUndefined Sample.fresh) in
  let w2 := snd (run "laptop" VUndefined w1) in
  let w3 := snd (clear w2) in
  is_Some (cache w1 !! "query_laptop")
  ∧ fst (run "laptop" VUndefined w1) = Throw rate_limit_error
  ∧ cache w3 = ∅
  ∧ check_time env w3 - check_time env w1 = 1500
  ∧ fst (run "laptop" VUndefined w3) ≠ Throw rate_limit_error
  ∧ ∃ evs, events_since w3 (snd (run "laptop" VUndefined w3))
           = ([EvNow; EvRandom; EvNow; EvNow;
               EvFetch (analysis_request Sample.analyzer_prompt "laptop")] ++ evs)%list.
Proof.
  intros env run clear w1 w2 w3.
  split; [vm_compute; by eexists|]. split; [vm_compute; reflexivity|].
  split; [vm_compute; reflexivity|]. split; [vm_compute; reflexivity|].
  split; [vm_compute; discriminate|].
  apply (processQuery_miss_events env Sample.parse Sample.analyzer_prompt
           Sample.extractor_prompt "laptop" VUndefined w3); vm_compute; reflexivity.
Qed.

(** C10: the cache is cleared and ["laptop"], allowed at [epoch], is asked
    again three clock readings later. *)
Lemma clearCache_keeps_rate_limiter_witness :
  let env := Sample.browser Sample.ticking Sample.offline Sample.found in
  let clear := handleMessage env Sample.parse Sample.analyzer_prompt Sample.extractor_prompt
                 {| action := "clearCache"; request_query := EmptyString |} VUndefined in
  rateLimiter (snd (clear Sample.limited)) = rateLimiter Sample.limited
  ∧ fst (processQuery env Sample.parse Sample.analyzer_prompt Sample.extractor_prompt
           "laptop" VUndefined (snd (clear Sample.limited)))
    = Throw (rate_limit_error).
Proof.
  intros env clear.
  destruct (clearCache_keeps_rate_limiter env Sample.parse Sample.analyzer_prompt
              Sample.extractor_prompt
              {| action := "clearCache"; request_query := EmptyString |} VUndefined
              Sample.limited) as (_ & Hrl & _ & Hagain); [reflexivity|].
  split; [exact Hrl|].
  apply (Hagain "laptop" VUndefined Sample.epoch).
  - vm_compute. reflexivity.
  - discriminate.
  - vm_compute. reflexivity.
Defined.

(** ** Further properties of the fallback analyzer *)

Lemma append_cons c s t : String c s +:+ t = String c (s +:+ t).
Proof. reflexivity. Qed.

Lemma all_chars_app p s t : all_chars p (s +:+ t) = all_chars p s && all_chars p t.
Proof.
  induction s as [|c s IH]; [done|].
  rewrite append_cons. cbn [all_chars]. by rewrite IH, andb_assoc.
Qed.

Lemma append_empty_r s : s +:+ EmptyString = s.
Proof. induction s as [|c s IH]; [done|]. by rewrite append_cons, IH. Qed.

(** Whatever the code unit, its encoding is made of URL characters. *)
Lemma encode_unit_url_chars c : all_chars url_char (JsString.encode_unit c) = true.
Proof. destruct c as [[] [] [] [] [] [] [] []]; vm_compute; reflexivity. Qed.

Lemma encodeURIComponent_url_chars q encoded :
  JsString.encodeURIComponent q = inr encoded → all_chars url_char encoded = true.
Proof.
  revert encoded. induction q as [|c q IH]; intros encoded; cbn [JsString.encodeURIComponent].
  - by intros [= <-].
  - destruct (JsString.is_lone_surrogate c); [discriminate|].
    destruct (JsString.encodeURIComponent q) as [e|rest]; [discriminate|].
    intros [= <-]. by rewrite all_chars_app, encode_unit_url_chars, (IH rest).
Qed.

(** [encodeURIComponent] throws exactly on the queries that hold a lone
    surrogate. *)
Lemma encodeURIComponent_cases q :
  if JsString.well_formed q
  then ∃ encoded, JsString.encodeURIComponent q = inr encoded
  else JsString.encodeURIComponent q = inl JsString.URIError.
Proof.
  induction q as [|c q IH]; cbn; [by eexists|].
  destruct (JsString.is_lone_surrogate c); cbn; [done|].
  destruct (JsString.well_formed q).
  - destruct IH as [rest ->]. by eexists.
  - by rewrite IH.
Qed.

(** A replacement text without a dollar sign is inserted as it is. *)
Lemma getSubstitution_plain matched before after r :
  all_chars url_char r = true → JsString.getSubstitution matched before after r = r.
Proof.
  induction r as [|c r IH]; [done|].
  cbn [all_chars]. intros [Hc Hr]%andb_prop. specialize (IH Hr).
  destruct c as [[] [] [] [] [] [] [] []]; vm_compute in Hc; try discriminate Hc;
    cbn [JsString.getSubstitution]; by rewrite IH.
Qed.

Lemma fill_amazon q encoded :
  JsString.encodeURIComponent q = inr encoded →
  fill URL_TEMPLATES.amazon q = inr ("https://www.amazon.in/s?k=" +:+ encoded).
Proof.
  intros H. unfold fill, JsString.replace. rewrite H. cbn.
  by rewrite getSubstitution_plain, append_empty_r by by apply (encodeURIComponent_url_chars q).
Qed.

Lemma fill_flights q encoded :
  JsString.encodeURIComponent q = inr encoded →
  fill URL_TEMPLATES.flights q = inr ("https://www.google.com/travel/flights?q=" +:+ encoded).
Proof.
  intros H. unfold fill, JsString.replace. rewrite H. cbn.
  by rewrite getSubstitution_plain, append_empty_r by by apply (encodeURIComponent_url_chars q).
Qed.

Lemma fill_zomato q encoded :
  JsString.encodeURIComponent q = inr encoded →
  fill URL_TEMPLATES.zomato q = inr ("https://www.zomato.com/search?q=" +:+ encoded).
Proof.
  intros H. unfold fill, JsString.replace. rewrite H. cbn.
  by rewrite getSubstitution_plain, append_empty_r by by apply (encodeURIComponent_url_chars q).
Qed.

Lemma fill_google q encoded :
  JsString.encodeURIComponent q = inr encoded →
  fill URL_TEMPLATES.google q = inr ("https://www.google.com/search?q=" +:+ encoded).
Proof.
  intros H. unfold fill, JsString.replace. rewrite H. cbn.
  by rewrite getSubstitution_plain, append_empty_r by by apply (encodeURIComponent_url_chars q).
Qed.

Lemma fill_malformed template q :
  JsString.encodeURIComponent q = inl JsString.URIError →
  fill template q = inl JsString.URIError.
Proof. intros H. unfold fill. by rewrite H. Qed.

(** The URL [fallbackAnalysis] builds is the fixed tracking page or one of
    the four search addresses followed by the percent-encoding of the whole
    query, which holds unreserved characters and percent signs only: no
    character of the query reaches the URL unescaped, and none is read as a
    [$] pattern by [replace]. When no analysis is returned, the query holds
    a lone surrogate and [URIError] is thrown. *)
Theorem fallback_url_is_encoded q :
  match fallbackAnalysis q with
  | inr a =>
      ∃ u, Js.get a "url" = inr (VStr u)
           ∧ (u = URL_TEMPLATES.tracking
              ∨ ∃ base encoded,
                  base ∈ search_prefixes
                  ∧ JsString.encodeURIComponent q = inr encoded
                  ∧ u = base +:+ encoded
                  ∧ all_chars url_char encoded = true)
  | inl e => e = JsString.URIError ∧ JsString.well_formed q = false
  end.
Proof.
  pose proof (encodeURIComponent_cases q) as Hq.
  destruct (fallbackAnalysis q) as [e|a] eqn:Hf; [by apply fallbackAnalysis_throws|].
  revert Hf. unfold fallbackAnalysis, search_prefixes.
  destruct (JsString.well_formed q).
  - destruct Hq as [encoded Hq].
    rewrite (fill_amazon q encoded), (fill_flights q encoded), (fill_zomato q encoded),
      (fill_google q encoded) by done.
    assert (Hchars := encodeURIComponent_url_chars q encoded Hq).
    repeat match goal with |- context [if ?b then _ else _] => destruct b end;
      intros [= <-]; (eexists; split; [reflexivity|]).
    + right. eexists _, encoded. split; [|done]. set_solver.
    + right. eexists _, encoded. split; [|done]. set_solver.
    + by left.
    + right. eexists _, encoded. split; [|done]. set_solver.
    + right. eexists _, encoded. split; [|done]. set_solver.
  - rewrite !(fill_malformed _ q) by done.
    repeat match goal with |- context [if ?b then _ else _] => destruct b end;
      try discriminate.
    intros [= <-]. eexists. split; [reflexivity|]. by left.
Qed.

Lemma is_lone_surrogate_lower_unit c :
  JsString.is_lone_surrogate (JsString.lower_unit c) = JsString.is_lone_surrogate c.
Proof. destruct c as [[] [] [] [] [] [] [] []]; vm_compute; reflexivity. Qed.

Lemma well_formed_toLowerCase s :
  JsString.well_formed (JsString.toLowerCase s) = JsString.well_formed s.
Proof.
  induction s as [|c s IH]; [done|]. cbn. by rewrite is_lone_surrogate_lower_unit, IH.
Qed.

Lemma lower_unit_idem c : JsString.lower_unit (JsString.lower_unit c) = JsString.lower_unit c.
Proof. destruct c as [[] [] [] [] [] [] [] []]; vm_compute; reflexivity. Qed.

Lemma toLowerCase_idem s : JsString.toLowerCase (JsString.toLowerCase s) = JsString.toLowerCase s.
Proof. induction s as [|c s IH]; cbn; [done|]. by rewrite lower_unit_idem, IH. Qed.

Lemma toLowerCase_app s t :
  JsString.toLowerCase (s +:+ t) = JsString.toLowerCase s +:+ JsString.toLowerCase t.
Proof.
  induction s as [|c s IH]; [done|].
  rewrite append_cons. cbn [JsString.toLowerCase]. by rewrite append_cons, IH.
Qed.

Lemma startsWith_app k b : JsString.startsWith (k +:+ b) k = true.
Proof.
  induction k as [|c k IH]; [by destruct b|].
  rewrite append_cons. cbn [JsString.startsWith]. by rewrite Ascii.eqb_refl.
Qed.

Lemma includes_unfold s k :
  JsString.includes s k
  = JsString.startsWith s k
    || match s with
       | EmptyString => false
       | String _ s' => JsString.includes s' k
       end.
Proof. by destruct s. Qed.

(** A keyword is found wherever it stands in the text. *)
Lemma includes_app a k b : JsString.includes (a +:+ k +:+ b) k = true.
Proof.
  induction a as [|c a IH].
  - change (EmptyString +:+ k +:+ b) with (k +:+ b).
    by rewrite includes_unfold, startsWith_app.
  - rewrite append_cons, includes_unfold, IH. apply orb_true_r.
Qed.

(** The classification of the fallback analyzer does not look at letter
    case: two queries with the same lowercased form get the same website,
    strategy and selectors (their URLs keep the queries as typed), and a
    query is classified like its lowercased form. *)
Theorem fallback_classification_ignores_case q1 q2 :
  JsString.toLowerCase q1 = JsString.toLowerCase q2 →
  classification (fallbackAnalysis q1) = classification (fallbackAnalysis q2)
  ∧ classification (fallbackAnalysis (JsString.toLowerCase q1))
    = classification (fallbackAnalysis q1).
Proof.
  intros H.
  assert (H2 : JsString.well_formed q1 = JsString.well_formed q2).
  { by rewrite <- (well_formed_toLowerCase q1), H, well_formed_toLowerCase. }
  pose proof (encodeURIComponent_cases q1) as E1.
  pose proof (encodeURIComponent_cases q2) as E2.
  pose proof (encodeURIComponent_cases (JsString.toLowerCase q1)) as E3.
  rewrite well_formed_toLowerCase in E3. rewrite H2 in E1, E3. rewrite H in E3.
  unfold fallbackAnalysis, fill. rewrite toLowerCase_idem, H.
  destruct (JsString.well_formed q2).
  - destruct E1 as [? ->], E2 as [? ->], E3 as [? ->].
    repeat match goal with |- context [if ?b then _ else _] => destruct b end;
      split; reflexivity.
  - rewrite E1, E2, E3.
    repeat match goal with |- context [if ?b then _ else _] => destruct b end;
      split; reflexivity.
Qed.

(** The first rule wins wherever its keyword stands and however it is
    cased: a query that contains [laptop], [phone] or [product] as a
    substring, in any letter case, goes to the amazon product search,
    whatever surrounds the keyword (other rules' keywords included); when
    no analysis is returned, the query holds a lone surrogate and
    [URIError] is thrown. *)
Theorem product_keyword_anywhere_selects_amazon a k b :
  JsString.toLowerCase k ∈ ["laptop"; "phone"; "product"] →
  match fallbackAnalysis (a +:+ k +:+ b) with
  | inr r =>
      Js.get r "website" = inr (VStr "amazon")
      ∧ Js.get r "scraping_strategy" = inr (VStr "product_list")
  | inl e => e = JsString.URIError ∧ JsString.well_formed (a +:+ k +:+ b) = false
  end.
Proof.
  intros Hk.
  destruct (fallbackAnalysis (a +:+ k +:+ b)) as [e|r] eqn:Hf;
    [by apply fallbackAnalysis_throws|].
  revert Hf. unfold fallbackAnalysis. rewrite !toLowerCase_app.
  assert (Hfirst :
    JsString.includes (JsString.toLowerCase a +:+ JsString.toLowerCase k
                         +:+ JsString.toLowerCase b) "laptop"
    || JsString.includes (JsString.toLowerCase a +:+ JsString.toLowerCase k
                            +:+ JsString.toLowerCase b) "phone"
    || JsString.includes (JsString.toLowerCase a +:+ JsString.toLowerCase k
                            +:+ JsString.toLowerCase b) "product" = true).
  { apply elem_of_cons in Hk as [->|Hk]; [by rewrite includes_app|].
    apply elem_of_cons in Hk as [->|Hk]; [by rewrite includes_app, orb_true_r|].
    apply elem_of_cons in Hk as [->|Hk]; [by rewrite includes_app, !orb_true_r|].
    by apply elem_of_nil in Hk. }
  rewrite Hfirst. destruct (fill _ _); [discriminate|]. by intros [= <-].
Qed.

(** *** The cache key *)

Lemma is_space_lower_unit c : JsString.is_space (JsString.lower_unit c) = JsString.is_space c.
Proof. destruct c as [[] [] [] [] [] [] [] []]; vm_compute; reflexivity. Qed.

Lemma trimStart_toLowerCase s :
  JsString.trimStart (JsString.toLowerCase s) = JsString.toLowerCase (JsString.trimStart s).
Proof.
  induction s as [|c s IH]; [done|]. cbn [JsString.toLowerCase JsString.trimStart].
  rewrite is_space_lower_unit. by destruct (JsString.is_space c).
Qed.

Lemma trimEnd_toLowerCase s :
  JsString.trimEnd (JsString.toLowerCase s) = JsString.toLowerCase (JsString.trimEnd s).
Proof.
  induction s as [|c s IH]; [done|]. cbn [JsString.toLowerCase JsString.trimEnd].
  rewrite IH, is_space_lower_unit.
  destruct (JsString.trimEnd s) as [|c' rest]; cbn [JsString.toLowerCase]; [|done].
  by destruct (JsString.is_space c).
Qed.

Lemma trim_toLowerCase s :
  JsString.trim (JsString.toLowerCase s) = JsString.toLowerCase (JsString.trim s).
Proof. unfold JsString.trim. by rewrite trimStart_toLowerCase, trimEnd_toLowerCase. Qed.

Lemma trimEnd_idem s : JsString.trimEnd (JsString.trimEnd s) = JsString.trimEnd s.
Proof.
  induction s as [|c s IH]; [done|]. cbn [JsString.trimEnd].
  destruct (JsString.trimEnd s) as [|c' rest] eqn:E.
  - destruct (JsString.is_space c) eqn:Hc; [done|]. cbn. by rewrite Hc.
  - cbn [JsString.trimEnd] in *. by rewrite IH.
Qed.

Lemma trimStart_starts_clean s : starts_clean (JsString.trimStart s).
Proof.
  induction s as [|c s IH]; [done|]. cbn [JsString.trimStart].
  by destruct (JsString.is_space c) eqn:Hc.
Qed.

Lemma trimEnd_starts_clean s : starts_clean s → starts_clean (JsString.trimEnd s).
Proof.
  destruct s as [|c s]; [done|]. cbn. intros Hc.
  destruct (JsString.trimEnd s); by rewrite ?Hc.
Qed.

Lemma trimStart_clean s : starts_clean s → JsString.trimStart s = s.
Proof. destruct s as [|c s]; [done|]. cbn. by intros ->. Qed.

Lemma trim_idem s : JsString.trim (JsString.trim s) = JsString.trim s.
Proof.
  unfold JsString.trim.
  rewrite (trimStart_clean (JsString.trimEnd _)), trimEnd_idem; [done|].
  apply trimEnd_starts_clean, trimStart_starts_clean.
Qed.

(** The cache key of a query does not change when the query is trimmed or
    lowercased beforehand: queries that differ in letter case or in the
    white space around them share one cache entry (while the rate limiter,
    keyed by the raw text, tells them apart). *)
Theorem cacheKey_ignores_case_and_padding q :
  cacheKey_of (JsString.trim q) = cacheKey_of q
  ∧ cacheKey_of (JsString.toLowerCase q) = cacheKey_of q
  ∧ cacheKey_of (JsString.trim (JsString.toLowerCase q)) = cacheKey_of q.
Proof.
  unfold cacheKey_of. split; [|split].
  - by rewrite <- trim_toLowerCase, trim_idem.
  - by rewrite toLowerCase_idem.
  - by rewrite <- trim_toLowerCase, toLowerCase_idem, trim_idem.
Qed.

(** ** Properties of the function injected into the page *)

Lemma length_take n s : (String.length (JsString.take n s) ≤ n)%nat.
Proof.
  revert s. induction n as [|n IH]; intros [|c s]; cbn; try lia.
  specialize (IH s). lia.
Qed.

Lemma forEach_push_length selectors index elements pushed items :
  forEach_push selectors index elements pushed = inr items →
  length items = (length pushed + Nat.min (20 - index) (length elements))%nat.
Proof.
  revert index pushed. induction elements as [|el rest IH]; intros index pushed;
    cbn [forEach_push length].
  - intros [= <-]. lia.
  - destruct (20 <=? index)%nat eqn:E.
    + apply Nat.leb_le in E. intros H. apply IH in H. lia.
    + apply Nat.leb_gt in E. destruct (page_item selectors el) as [e|item]; [discriminate|].
      intros H. apply IH in H. rewrite length_app in H. cbn in H. lia.
Qed.

(** Elements from the twentieth on are never looked at. *)
Lemma forEach_push_first_20 selectors index elements pushed :
  forEach_push selectors index elements pushed
  = forEach_push selectors index (take (20 - index) elements) pushed.
Proof.
  revert index pushed. induction elements as [|el rest IH]; intros index pushed.
  - by rewrite take_nil.
  - cbn [forEach_push]. destruct (20 <=? index)%nat eqn:E.
    + apply Nat.leb_le in E. replace (20 - index)%nat with 0%nat by lia. cbn.
      rewrite IH. by replace (20 - S index)%nat with 0%nat by lia.
    + apply Nat.leb_gt in E.
      replace (20 - index)%nat with (S (20 - S index)) by lia.
      cbn [take forEach_push]. apply Nat.leb_gt in E. rewrite E.
      destruct (page_item selectors el); [done|]. apply IH.
Qed.

(** What the function returns always has an [html] of at most 50000
    characters and a [data] array of at most 20 items; when no call into the
    page failed, [data] has one item for each of the first 20 matched
    elements, and the elements after them are never queried. *)
Theorem page_content_is_bounded doc now selectors :
  ∃ h items,
    Js.get (extractPageContent doc now selectors) "html" = inr (VStr h)
    ∧ Js.get (extractPageContent doc now selectors) "data" = inr (VArr items)
    ∧ (String.length h ≤ N.to_nat 50000)%nat
    ∧ (length items ≤ 20)%nat
    ∧ (Js.get (extractPageContent doc now selectors) "error" = inr VUndefined →
       ∃ primary elements,
         Js.get selectors "primary" = inr primary
         ∧ querySelectorAll doc primary = inr elements
         ∧ length items = Nat.min 20 (length elements)
         ∧ forEach_push selectors 0 (take 20 elements) [] = inr items).
Proof.
  assert (Hfailed : ∀ e : JsError,
    ∃ h items,
      Js.get (VObj [("html", VStr EmptyString); ("data", VArr []);
                    ("error", VStr (message e)); ("timestamp", VNum now);
                    ("url", VStr (location_href doc))]) "html" = inr (VStr h)
      ∧ Js.get (VObj [("html", VStr EmptyString); ("data", VArr []);
                      ("error", VStr (message e)); ("timestamp", VNum now);
                      ("url", VStr (location_href doc))]) "data" = inr (VArr items)
      ∧ (String.length h ≤ N.to_nat 50000)%nat
      ∧ (length items ≤ 20)%nat
      ∧ (Js.get (VObj [("html", VStr EmptyString); ("data", VArr []);
                       ("error", VStr (message e)); ("timestamp", VNum now);
                       ("url", VStr (location_href doc))]) "error" = inr VUndefined →
         ∃ primary elements,
           Js.get selectors "primary" = inr primary
           ∧ querySelectorAll doc primary = inr elements
           ∧ length items = Nat.min 20 (length elements)
           ∧ forEach_push selectors 0 (take 20 elements) [] = inr items)).
  { intros e. exists EmptyString, []. split; [done|]. split; [done|].
    split; [apply Nat.le_0_l|]. split; [apply Nat.le_0_l|]. discriminate. }
  unfold extractPageContent.
  destruct (Js.get selectors "primary") as [e|primary] eqn:Hp; [apply Hfailed|].
  destruct (querySelectorAll doc primary) as [e|elements] eqn:Hq; [apply Hfailed|].
  destruct (forEach_push selectors 0 elements []) as [e|items] eqn:Hf; [apply Hfailed|].
  exists (JsString.substring0 50000 (outerHTML doc)), items.
  pose proof (forEach_push_length _ _ _ _ _ Hf) as Hlen. cbn [length] in Hlen.
  split; [done|]. split; [done|]. split; [apply length_take|]. split; [lia|].
  intros _. exists primary, elements. split; [done|]. split; [done|]. split; [lia|].
  by rewrite forEach_push_first_20 in Hf.
Qed.

Lemma forEach_push_fails selectors index elements pushed i element e :
  elements !! i = Some element →
  (index + i < 20)%nat →
  page_item selectors element = inl e →
  ∃ e', forEach_push selectors index elements pushed = inl e'.
Proof.
  revert index pushed i. induction elements as [|el rest IH]; intros index pushed i; [done|].
  intros Hi Hlt He. cbn [forEach_push].
  assert ((20 <=? index)%nat = false) as -> by (apply Nat.leb_gt; lia).
  destruct i as [|i]; cbn in Hi.
  - injection Hi as ->. rewrite He. eauto.
  - destruct (page_item selectors el) as [e0|item]; [eauto|].
    apply (IH (S index) _ i); [done|lia|done].
Qed.

(** All or nothing: when building the item of one of the first 20 matched
    elements throws (its [querySelector] rejects a selector), the function
    still returns, but with an empty [html], an empty [data] (the items
    built before are dropped) and the error's message. *)
Theorem page_failure_drops_everything doc now selectors primary elements i element e :
  Js.get selectors "primary" = inr primary →
  querySelectorAll doc primary = inr elements →
  elements !! i = Some element →
  (i < 20)%nat →
  page_item selectors element = inl e →
  ∃ msg,
    extractPageContent doc now selectors
    = VObj [("html", VStr EmptyString); ("data", VArr []); ("error", VStr msg);
            ("timestamp", VNum now); ("url", VStr (location_href doc))].
Proof.
  intros Hp Hq Hi Hlt He. unfold extractPageContent. rewrite Hp, Hq.
  destruct (forEach_push_fails selectors 0 elements [] i element e) as [e' ->];
    [done|lia|done|]. eauto.
Qed.

Lemma text_or_nonempty found otherwise :
  otherwise ≠ EmptyString → ∃ t, text_or found otherwise = VStr t ∧ t ≠ EmptyString.
Proof.
  intros Hne. destruct found as [el|]; cbn; [|eauto].
  unfold Js.or. cbn. destruct (JsString.trim (textContent el)) as [|c t] eqn:E; cbn.
  - eauto.
  - by exists (String c t).
Qed.

Lemma page_item_well_formed selectors element item :
  page_item selectors element = inr item → well_formed_item item.
Proof.
  unfold page_item.
  destruct (querySelector element (VStr "h3, h2, h1, .title, [title]")) as [?|title];
    [discriminate|].
  destruct (Js.get selectors "secondary") as [?|secondary]; [discriminate|].
  destruct (querySelector element secondary) as [?|price]; [discriminate|].
  destruct (querySelector element (VStr "a")) as [?|anchor]; [discriminate|].
  destruct (querySelector element (VStr ".description, p")) as [?|description];
    [discriminate|].
  destruct (querySelector element (VStr ".rating, .stars, [data-rating]")) as [?|rating];
    [discriminate|].
  intros [= <-].
  destruct (text_or_nonempty title "No title") as (t & -> & Ht); [done|].
  destruct (text_or_nonempty price "Price not found") as (p & -> & Hp); [done|].
  destruct (text_or_nonempty rating "No rating") as (r & -> & Hr); [done|].
  assert (Hd : ∃ d, match description with
                    | Some el =>
                        Js.or (VStr (JsString.substring0 200 (JsString.trim (textContent el))))
                              (VStr EmptyString)
                    | None => VStr EmptyString
                    end = VStr d ∧ (String.length d ≤ 200)%nat).
  { destruct description as [el|]; [|exists EmptyString; cbn; split; [done|lia]].
    unfold Js.or.
    destruct (Js.truthy _); [|exists EmptyString; cbn; split; [done|lia]].
    eexists. split; [done|]. apply length_take. }
  destruct Hd as (d & -> & Hd).
  eexists t, p, _, d, r. split; [reflexivity|]. repeat split; try done.
  destruct anchor as [el|]; [|by right]. unfold Js.or.
  destruct (Js.truthy (href el)) eqn:E; [by left | by right].
Qed.

Lemma forEach_push_well_formed selectors index elements pushed items :
  Forall well_formed_item pushed →
  forEach_push selectors index elements pushed = inr items →
  Forall well_formed_item items.
Proof.
  revert index pushed. induction elements as [|el rest IH]; intros index pushed Hp;
    cbn [forEach_push].
  - by intros [= <-].
  - destruct (20 <=? index)%nat; [by apply IH|].
    destruct (page_item selectors el) as [e|item] eqn:E; [discriminate|].
    apply IH. apply Forall_app. split; [done|].
    apply Forall_singleton. by apply (page_item_well_formed selectors el).
Qed.

(** Every item the function returns has the five properties [title],
    [price], [link], [description] and [rating]; a missing or blank title,
    price or rating is replaced by its placeholder, so these are never
    empty, and the description is cut at 200 characters. *)
Theorem page_items_are_well_formed doc now selectors items :
  Js.get (extractPageContent doc now selectors) "data" = inr (VArr items) →
  Forall well_formed_item items.
Proof.
  unfold extractPageContent.
  destruct (Js.get selectors "primary") as [e|primary]; [by intros [= <-]|].
  destruct (querySelectorAll doc primary) as [e|elements]; [by intros [= <-]|].
  destruct (forEach_push selectors 0 elements []) as [e|items'] eqn:Hf;
    [by intros [= <-]|].
  intros [= <-]. by apply (forEach_push_well_formed selectors 0 elements []).
Qed.

Lemma content_of_page doc now selectors :
  ∃ content,
    content_of (extractPageContent doc now selectors) = Some content
    ∧ (length (pc_data content) ≤ 20)%nat
    ∧ (String.length (pc_html content) ≤ N.to_nat 50000)%nat
    ∧ Forall well_formed_item (pc_data content).
Proof.
  assert (Hfailed : ∀ e : JsError,
    ∃ content,
      content_of (VObj [("html", VStr EmptyString); ("data", VArr []);
                        ("error", VStr (message e)); ("timestamp", VNum now);
                        ("url", VStr (location_href doc))]) = Some content
      ∧ (length (pc_data content) ≤ 20)%nat
      ∧ (String.length (pc_html content) ≤ N.to_nat 50000)%nat
      ∧ Forall well_formed_item (pc_data content)).
  { intros e. eexists. split; [reflexivity|]. cbn [pc_data pc_html].
    split; [apply Nat.le_0_l|]. split; [apply Nat.le_0_l|]. constructor. }
  unfold extractPageContent.
  destruct (Js.get selectors "primary") as [e|primary]; [apply Hfailed|].
  destruct (querySelectorAll doc primary) as [e|elements]; [apply Hfailed|].
  destruct (forEach_push selectors 0 elements []) as [e|items] eqn:Hf; [apply Hfailed|].
  eexists. split; [reflexivity|]. cbn [pc_data pc_html].
  pose proof (forEach_push_length _ _ _ _ _ Hf) as Hlen. cbn [length] in Hlen.
  split; [lia|]. split; [apply length_take|].
  by apply (forEach_push_well_formed selectors 0 elements []).
Qed.

(** End to end: in a browser that runs [extractPageContent] in the opened
    tab, whatever [performScraping] returns has at most 20 data items, each
    well formed, and at most 50000 characters of markup. *)
Theorem scraped_data_is_bounded (env : Env) a w sr :
  (∀ n tabId selectors results,
     env_executeScript env n tabId selectors = Return results →
     ∃ doc now rest,
       results = {| result := content_of (extractPageContent doc now selectors) |} :: rest) →
  fst (performScraping env a w) = Return sr →
  (length (data sr) ≤ 20)%nat
  ∧ (String.length (html sr) ≤ N.to_nat 50000)%nat
  ∧ Forall well_formed_item (data sr).
Proof.
  intros Hpage Hret.
  apply performScraping_return_inv in Hret
    as (u & sel & strat & tabId & first & rest & content & _ & _ & _ & Hx & Hres & -> & _).
  apply Hpage in Hx as (doc & now & rest' & [= -> _]). cbn [result] in Hres.
  destruct (content_of_page doc now sel) as (content' & Hc & Hlen & Hhtml & Hwf).
  rewrite Hres in Hc. injection Hc as <-. done.
Qed.

(** ** Properties of [escapeHtml] *)

Lemma escapeHtml_cons c s :
  escapeHtml (VStr (String c s)) = entity c +:+ escapeHtml (VStr s).
Proof. destruct c as [[] [] [] [] [] [] [] []]; reflexivity. Qed.

Lemma escapeHtml_escape_each s : escapeHtml (VStr s) = escape_each s.
Proof.
  induction s as [|c s IH]; [done|].
  rewrite escapeHtml_cons. cbn [escape_each]. by rewrite IH.
Qed.

(** The five replacements in the order the code makes them amount to one
    pass that escapes each character once: the ampersands of the entities
    written by the later replacements are never escaped again, and text
    without any of the five characters comes back unchanged. Anything that
    is not a string becomes the empty string. *)
Theorem escapeHtml_escapes_each_character_once unsafe :
  (∀ text, unsafe = VStr text → escapeHtml unsafe = escape_each text)
  ∧ (∀ text, unsafe = VStr text →
       all_chars (fun c => markup_free c && negb (Ascii.eqb c "&")) text = true →
       escapeHtml unsafe = text)
  ∧ ((∀ text, unsafe ≠ VStr text) → escapeHtml unsafe = EmptyString).
Proof.
  split; [|split].
  - intros text ->. apply escapeHtml_escape_each.
  - intros text ->. rewrite escapeHtml_escape_each.
    induction text as [|c text IH]; [done|]. cbn [all_chars escape_each].
    intros [Hc Ht]%andb_prop. rewrite (IH Ht).
    destruct c as [[] [] [] [] [] [] [] []]; vm_compute in Hc; try discriminate Hc;
      reflexivity.
  - intros Hnot. destruct unsafe; try reflexivity. by destruct (Hnot s).
Qed.

Lemma entity_markup_free c : all_chars markup_free (entity c) = true.
Proof. destruct c as [[] [] [] [] [] [] [] []]; vm_compute; reflexivity. Qed.

(** Whatever it is given, [escapeHtml] returns a text without [<], [>],
    double quote or apostrophe. *)
Theorem escapeHtml_output_has_no_markup unsafe :
  all_chars markup_free (escapeHtml unsafe) = true.
Proof.
  destruct unsafe as [| |b|n|text|items|props]; try reflexivity.
  rewrite escapeHtml_escape_each.
  induction text as [|c text IH]; [done|]. cbn [escape_each].
  by rewrite all_chars_app, entity_markup_free, IH.
Qed.

(** The class of a character for escaping: which entity it becomes, if any. *)
Lemma entity_cases c :
  (c = "&"%char ∧ entity c = "&amp;")
  ∨ (c = "<"%char ∧ entity c = "&lt;")
  ∨ (c = ">"%char ∧ entity c = "&gt;")
  ∨ (c = ascii_of_N 34 ∧ entity c = "&quot;")
  ∨ (c = "'"%char ∧ entity c = "&#039;")
  ∨ (c ≠ "&"%char ∧ entity c = String c EmptyString).
Proof.
  destruct c as [[] [] [] [] [] [] [] []];
    first [ by left | by right; left | by right; right; left
          | by right; right; right; left | by right; right; right; right; left
          | right; right; right; right; right; split; [discriminate | reflexivity] ].
Qed.

(** Entities and plain characters can be told apart from the left. *)
Lemma entity_prefix_free c1 c2 r1 r2 :
  entity c1 +:+ r1 = entity c2 +:+ r2 → c1 = c2 ∧ r1 = r2.
Proof.
  destruct (entity_cases c1) as [[-> ->]|[[-> ->]|[[-> ->]|[[-> ->]|[[-> ->]|[H1 ->]]]]]];
  destruct (entity_cases c2) as [[-> ->]|[[-> ->]|[[-> ->]|[[-> ->]|[[-> ->]|[H2 ->]]]]]];
    cbv [String.append]; intros H; try discriminate H;
    try (injection H as <-; done); try (injection H as ->; done);
    try (injection H; intros; subst; done).
Qed.

Lemma entity_nonempty c r : entity c +:+ r ≠ EmptyString.
Proof.
  destruct (entity_cases c) as [[-> ->]|[[-> ->]|[[-> ->]|[[-> ->]|[[-> ->]|[H1 ->]]]]]];
    cbv [String.append]; discriminate.
Qed.

Lemma escape_each_inj s t : escape_each s = escape_each t → s = t.
Proof.
  revert t. induction s as [|c s IH]; intros [|d t]; cbn [escape_each]; intros H.
  - done.
  - symmetry in H. by apply entity_nonempty in H.
  - by apply entity_nonempty in H.
  - apply entity_prefix_free in H as [-> H]. by rewrite (IH t H).
Qed.

(** Escaping loses nothing: two different texts never escape to the same
    text. *)
Theorem escapeHtml_is_injective_on_strings s t :
  escapeHtml (VStr s) = escapeHtml (VStr t) → s = t.
Proof. rewrite !escapeHtml_escape_each. apply escape_each_inj. Qed.

(** ** The further properties at concrete inputs *)

(** A [scrapeQuery] for a query inside its cooldown is answered with the
    rate-limit message. *)
Lemma handleMessage_always_answers_witness :
  fst (handleMessage (Sample.browser Sample.ticking Sample.offline Sample.found)
         Sample.parse Sample.analyzer_prompt Sample.extractor_prompt
         {| action := "scrapeQuery"; request_query := "laptop" |} VUndefined Sample.limited)
  = Return (VObj [("success", VBool false);
                  ("error", VStr "Rate limit exceeded. Please wait before making another request.")]).
Proof.
  destruct (handleMessage_always_answers
              (Sample.browser Sample.ticking Sample.offline Sample.found)
              Sample.parse Sample.analyzer_prompt Sample.extractor_prompt
              {| action := "scrapeQuery"; request_query := "laptop" |} VUndefined
              Sample.limited) as (_ & Hscrape).
  destruct (Hscrape eq_refl) as (_ & Hanswer).
  etransitivity; [exact Hanswer|]. vm_compute. reflexivity.
Defined.

(** [getStatus] with the endpoint unreachable. *)
Lemma getStatus_reports_without_side_effects_witness :
  fst (handleMessage (Sample.browser Sample.ticking Sample.offline Sample.found)
         Sample.parse Sample.analyzer_prompt Sample.extractor_prompt
         {| action := "getStatus"; request_query := EmptyString |} VUndefined Sample.limited)
  = Return (VObj [("success", VBool true);
                  ("status", VObj [("activeRequests", VNum 0);
                                   ("cacheSize", VNum 0);
                                   ("gemmaConnected", VBool false)])]).
Proof.
  etransitivity.
  - apply (f_equal fst).
    apply (getStatus_reports_without_side_effects
             (Sample.browser Sample.ticking Sample.offline Sample.found)
             Sample.parse Sample.analyzer_prompt Sample.extractor_prompt
             {| action := "getStatus"; request_query := EmptyString |} VUndefined
             Sample.limited); [reflexivity | discriminate].
  - vm_compute. reflexivity.
Defined.


(** After a scrape that succeeded, nothing is in flight. *)
Lemma inflight_marker_released_witness :
  activeRequests (snd (processQuery
                         (Sample.browser Sample.ticking Sample.offline Sample.found)
                         Sample.parse Sample.analyzer_prompt Sample.extractor_prompt
                         "laptop" VUndefined Sample.fresh))
  = ∅.
Proof.
  etransitivity.
  - apply (inflight_marker_released
             (Sample.browser Sample.ticking Sample.offline Sample.found)
             Sample.parse Sample.analyzer_prompt Sample.extractor_prompt
             "laptop" VUndefined Sample.fresh).
    reflexivity.
  - vm_compute. reflexivity.
Defined.

(** The scrape fails, and the query is stamped all the same. *)
Lemma attempt_consumes_rate_limit_slot_witness :
  rateLimiter (snd (processQuery
                      (Sample.browser Sample.ticking Sample.offline Sample.script_rejected)
                      Sample.parse Sample.analyzer_prompt Sample.extractor_prompt
                      "laptop" VUndefined Sample.fresh)) !! "laptop"
  = Some (Sample.epoch + 2).
Proof.
  destruct (attempt_consumes_rate_limit_slot
              (Sample.browser Sample.ticking Sample.offline Sample.script_rejected)
              Sample.parse Sample.analyzer_prompt Sample.extractor_prompt
              "laptop" VUndefined Sample.fresh) as (Hstamp & _).
  - intros n. cbn. unfold Sample.ticking, Sample.epoch. lia.
  - vm_compute. reflexivity.
  - exact Hstamp.
Defined.

(** The model answers with the empty object: the result is tagged
    [gemma_extraction] and has no [url]. *)
Lemma gemma_extraction_result_witness :
  ∃ r, fst (extractDataWithGemma
              (Sample.browser Sample.ticking Sample.empty_object_reply Sample.found)
              Sample.parse Sample.extractor_prompt Sample.nothing_found Sample.fresh)
       = Return r
       ∧ Js.get r "source" = inr (VStr "gemma_extraction")
       ∧ Js.get r "url" = inr VUndefined.
Proof.
  destruct (gemma_extraction_result
              (Sample.browser Sample.ticking Sample.empty_object_reply Sample.found)
              Sample.parse Sample.extractor_prompt Sample.nothing_found Sample.fresh
              {| ok := true; status := 200;
                 json := Return (VObj [("response", VStr "Here you go: {}")]) |}
              (VObj [("response", VStr "Here you go: {}")])
              "Here you go: {}" "{}" [])
    as (r & Hr & _ & _ & _ & Hsource & Hurl & _); try reflexivity.
  - constructor.
  - exists r. split; [exact Hr|]. split; [apply Hsource | apply Hurl]; reflexivity.
Defined.

(** The script is fulfilled: one removal. *)
Lemma performScraping_removals_witness :
  let env := Sample.browser Sample.ticking Sample.offline Sample.found in
  removals 7 (events_since Sample.fresh
                (snd (performScraping env Sample.shop_analysis Sample.fresh)))
  = 1%nat.
Proof.
  intros env. etransitivity.
  - apply (performScraping_removals env Sample.shop_analysis Sample.fresh
             (VStr "https://www.amazon.in/s?k=laptop") Sample.card_selectors 7);
      reflexivity.
  - reflexivity.
Defined.

(** What a successful scrape of the shop returns. *)
Lemma scrape_result_comes_from_page_witness :
  ∃ u sel strat tabId first rest content,
    Js.get Sample.shop_analysis "url" = inr u
    ∧ Js.get Sample.shop_analysis "selectors" = inr sel
    ∧ Js.get Sample.shop_analysis "scraping_strategy" = inr strat
    ∧ env_executeScript Sample.shop_browser 2 tabId sel = Return (first :: rest)
    ∧ result first = Some content
    ∧ Sample.shop_result
      = {| url := u; strategy := strat; html := pc_html content; data := pc_data content |}
    ∧ events_since Sample.fresh
        (snd (performScraping Sample.shop_browser Sample.shop_analysis Sample.fresh))
      = [EvTabCreate u; EvTabWait tabId; EvExecuteScript tabId sel; EvTabRemove tabId].
Proof.
  apply (scrape_result_comes_from_page Sample.shop_browser Sample.shop_analysis
           Sample.fresh Sample.shop_result).
  vm_compute. reflexivity.
Defined.

(** Two spellings of one query. *)
Lemma fallback_classification_ignores_case_witness :
  classification (fallbackAnalysis "LAPTOP deals")
  = classification (fallbackAnalysis "Laptop Deals").
Proof.
  apply (fallback_classification_ignores_case "LAPTOP deals" "Laptop Deals").
  reflexivity.
Defined.

(** [PHONE] inside [headPHONEs], next to a keyword of the flight rule. *)
Lemma product_keyword_anywhere_selects_amazon_witness :
  ∃ r, fallbackAnalysis ("wireless head" +:+ "PHONE" +:+ "s for travel") = inr r
       ∧ Js.get r "website" = inr (VStr "amazon").
Proof.
  assert (Hk : JsString.toLowerCase "PHONE" ∈ ["laptop"; "phone"; "product"]).
  { change (JsString.toLowerCase "PHONE") with "phone". set_solver. }
  pose proof (product_keyword_anywhere_selects_amazon "wireless head" "PHONE" "s for travel" Hk)
    as H.
  destruct (fallbackAnalysis ("wireless head" +:+ "PHONE" +:+ "s for travel")) as [e|r].
  - destruct H as [_ H]. vm_compute in H. discriminate H.
  - exists r. split; [reflexivity | apply H].
Defined.

(** 25 cards match, 20 items come back. *)
Lemma page_content_is_bounded_witness :
  ∃ items,
    Js.get (extractPageContent Sample.shop Sample.epoch Sample.card_selectors) "data"
    = inr (VArr items)
    ∧ length items = 20%nat.
Proof.
  destruct (page_content_is_bounded Sample.shop Sample.epoch Sample.card_selectors)
    as (h & items & _ & Hdata & _ & _ & Hclean).
  destruct Hclean as (primary & elements & Hp & Hq & Hlen & _); [reflexivity|].
  injection Hp as <-. injection Hq as <-.
  exists items. split; [exact Hdata | exact Hlen].
Defined.

(** The secondary selector does not parse: nothing comes back. *)
Lemma page_failure_drops_everything_witness :
  ∃ msg,
    extractPageContent Sample.shop Sample.epoch Sample.broken_selectors
    = VObj [("html", VStr EmptyString); ("data", VArr []); ("error", VStr msg);
            ("timestamp", VNum Sample.epoch);
            ("url", VStr "https://www.amazon.in/s?k=laptop")].
Proof.
  apply (page_failure_drops_everything Sample.shop Sample.epoch Sample.broken_selectors
           (VStr ".card") (replicate 25 Sample.card) 0 Sample.card
           (Error "Failed to execute 'querySelector' on 'Element': '][' is not a valid selector."));
    try reflexivity.
  lia.
Defined.

(** The items of the shop. *)
Lemma page_items_are_well_formed_witness :
  Forall well_formed_item (replicate 20 Sample.listed).
Proof.
  apply (page_items_are_well_formed Sample.shop Sample.epoch Sample.card_selectors).
  vm_compute. reflexivity.
Defined.

(** The shop scraped through [performScraping]. *)
Lemma scraped_data_is_bounded_witness :
  (length (data Sample.shop_result) ≤ 20)%nat.
Proof.
  apply (scraped_data_is_bounded Sample.shop_browser Sample.shop_analysis Sample.fresh
           Sample.shop_result).
  - intros n tabId selectors results [= <-]. by exists Sample.shop, Sample.epoch, [].
  - vm_compute. reflexivity.
Defined.

(** A text without any of the five characters. *)
Lemma escapeHtml_escapes_each_character_once_witness :
  escapeHtml (VStr "Laptop X15") = "Laptop X15".
Proof.
  destruct (escapeHtml_escapes_each_character_once (VStr "Laptop X15")) as (_ & Hplain & _).
  apply Hplain; reflexivity.
Defined.

Lemma escapeHtml_is_injective_on_strings_witness :
  "<b>Tom & Jerry</b>" = "<b>Tom & Jerry</b>".
Proof.
  apply (escapeHtml_is_injective_on_strings "<b>Tom & Jerry</b>" "<b>Tom & Jerry</b>").
  reflexivity.
Defined.

(** [escapeHtml] on a sample with all five characters. *)
Example escapeHtml_sample :
  escapeHtml (VStr ("<a href=" +:+ dquote +:+ "x" +:+ dquote +:+ ">Tom & Jerry's</a>"))
  = "&lt;a href=&quot;x&quot;&gt;Tom &amp; Jerry&#039;s&lt;/a&gt;".
Proof. reflexivity. Qed.

(** ["laptop"] is cached, the cache is cleared, and three seconds after the
    first attempt the query is asked again. *)
Lemma cleared_query_is_processed_again_witness :
  let env := Sample.browser Sample.strolling Sample.offline Sample.found in
  let run := processQuery env Sample.parse Sample.analyzer_prompt Sample.extractor_prompt in
  let clear := handleMessage env Sample.parse Sample.analyzer_prompt Sample.extractor_prompt
                 {| action := "clearCache"; request_query := EmptyString |} VUndefined in
  let w1 := snd (run "laptop" VUndefined Sample.fresh) in
  is_Some (cache w1 !! "query_laptop")
  ∧ ∃ evs, events_since (snd (clear w1)) (snd (run "laptop" VUndefined (snd (clear w1))))
           = ([EvNow; EvRandom; EvNow; EvNow;
               EvFetch (analysis_request Sample.analyzer_prompt "laptop")] ++ evs)%list.
Proof.
  intros env run clear w1. split.
  - vm_compute. eexists. reflexivity.
  - apply (cleared_query_is_processed_again env Sample.parse Sample.analyzer_prompt
             Sample.extractor_prompt
             {| action := "clearCache"; request_query := EmptyString |} VUndefined w1
             "laptop" VUndefined).
    + reflexivity.
    + vm_compute. reflexivity.
Defined.

(** ** String primitives on samples *)

Example encodeURIComponent_sample :
  JsString.encodeURIComponent "gaming laptop under 80000"
  = inr "gaming%20laptop%20under%2080000".
Proof. reflexivity. Qed.

(** A lone surrogate anywhere in the text makes [encodeURIComponent]
    throw; the tracking rule, which encodes nothing, still answers. *)
Example lone_surrogate_sample :
  JsString.encodeURIComponent Sample.malformed_query = inl JsString.URIError
  ∧ fallbackAnalysis Sample.malformed_query = inl JsString.URIError
  ∧ ∃ a, fallbackAnalysis ("track " +:+ Sample.lone_surrogate) = inr a.
Proof. split; [|split]; [reflexivity..|by eexists]. Qed.

Example laptop_analysis_sample :
  fallbackAnalysis "gaming laptop under 80000" = inr Sample.laptop_analysis.
Proof. reflexivity. Qed.

Example match_braces_sample : JsString.match_braces "so: {x} and {y}." = Some "{x} and {y}".
Proof. reflexivity. Qed.

Example replace_sample :
  JsString.replace "a {Q} b {Q}" "{Q}" "x$&y$$" = "a x{Q}y$ b {Q}".
Proof. reflexivity. Qed.

(** The first rule that matches wins, whatever else the query mentions. *)
Example first_match_wins_sample :
  (∃ a, fallbackAnalysis "track my laptop package" = inr a
        ∧ Js.get a "website" = inr (VStr "amazon"))
  ∧ (∃ a, fallbackAnalysis "food on the flight" = inr a
          ∧ Js.get a "website" = inr (VStr "flights")).
Proof. split; eexists; split; reflexivity. Qed.

Example normalize_sample : cacheKey_of "  Gaming Laptop " = "query_gaming laptop".
Proof. reflexivity. Qed.
